(** * LVISInferenceMapperWithGT: a shallow embedding of [__call__]

    Source: src/datasets/dataset_mappers/lvis_dataset_mapper_with_gt.py

    The mapper is glue code around numpy, torch, pycocotools and detectron2.
    The embedding keeps the shape of the Python:
    - a dataset dict is a [gmap string value] living in a store of objects,
      so that [copy.deepcopy] and the item assignments of the body can be
      told apart from a mutation of the caller's dict;
    - exceptions are an error type, and the body is written in a small
      state-and-exception monad;
    - numpy arrays are nested lists, pixel values are [Z] with the wrap-around
      of the dtype written out;
    - the collaborators whose result depends on files or on configuration
      (image reading, the augmentation list, the mask codec) are section
      variables. *)

From Stdlib Require Import ZArith List Lia Bool.
From stdpp Require Import base option list gmap strings fin_maps.
Import ListNotations.
Local Open Scope Z_scope.

(** ** Exceptions *)

(** The exceptions that the body of [__call__] or its callees can raise.
    [AssertionError] is what the spec calls InvariantViolation;
    [SizeMismatchError] is what the spec calls SizeMismatch. *)
Inductive exn : Type :=
| KeyError (key : string)
| TypeError
| IOError
| SizeMismatchError
| AssertionError
| DecodeError
| AxisError
| IndexError
| RuntimeError.

Inductive result (A : Type) : Type :=
| Ok (a : A)
| Raise (e : exn).
Arguments Ok {A} a.
Arguments Raise {A} e.

Definition rbind {A B} (r : result A) (k : A -> result B) : result B :=
  match r with
  | Ok a => k a
  | Raise e => Raise e
  end.

Fixpoint rmapM {A B} (f : A -> result B) (l : list A) : result (list B) :=
  match l with
  | [] => Ok []
  | x :: l' =>
      rbind (f x) (fun y => rbind (rmapM f l') (fun ys => Ok (y :: ys)))
  end.

(** ** Arrays *)

(** A 2-D array is a list of rows, a 3-D array a list of rows of pixels, a
    pixel being the list of its values along the last axis. *)
Definition Array2 : Type := list (list Z).
Definition Array3 : Type := list (list (list Z)).

(** [a.shape[:2]] *)
Definition shape2 {A} (a : list (list A)) : nat * nat :=
  (length a, length (hd [] a)).

(** What [mask.decode] hands back: [h, w] for a single run-length object,
    [h, w, n] for a list of [n] objects (one per polygon or part). *)
Inductive decoded : Type :=
| Dec2 (m : Array2)
| Dec3 (m : Array3).

Definition sumZ (l : list Z) : Z := fold_right Z.add 0 l.

(** [np.sum(m, axis=2)]: needs a third axis; the values of a [uint8] array
    are accumulated in the platform's unsigned integer, 64 bits wide. *)
Definition np_sum_axis2 (m : decoded) : result Array2 :=
  match m with
  | Dec2 _ => Raise AxisError
  | Dec3 a => Ok (map (map (fun px => sumZ px mod 2 ^ 64)) a)
  end.

(** [m.astype(np.uint8)]: keeps the low eight bits. *)
Definition astype_uint8 (m : Array2) : Array2 :=
  map (map (fun v => v mod 256)) m.

(** Lines 185-186: the merge of the parts of one instance. *)
Definition merge_parts (m : decoded) : result Array2 :=
  rbind (np_sum_axis2 m) (fun s => Ok (astype_uint8 s)).

(** [m[:, :, None]] *)
Definition add_channel (m : Array2) : Array3 :=
  map (map (fun v => [v])) m.

(** [a[:, :, 0]] *)
Definition channel0 (a : Array3) : result Array2 :=
  rmapM (rmapM (fun px => match px with
                          | [] => Raise IndexError
                          | v :: _ => Ok v
                          end)) a.

(** [image.transpose(2, 0, 1)]: height, width, channel to channel, height,
    width. The channel count is that of the first pixel. *)
Definition transpose_2_0_1 (image : Array3) : Array3 :=
  map (fun c => map (map (fun px => nth c px 0)) image)
      (seq 0 (length (hd [] (hd [] image)))).

(** ** Tensors and the [Instances] aggregate *)

(** A tensor keeps its shape next to its rows: an empty batch still has
    one. *)
Record Tensor1 : Type := { t1_shape : nat; t1_data : list Z }.
Record Tensor2 : Type := { t2_shape : nat * nat; t2_data : list (list Z) }.
Record Tensor3 : Type := { t3_shape : nat * nat * nat; t3_data : list Array2 }.

(** A Python integer that a signed 64-bit entry can hold. *)
Definition int64_ok (n : Z) : bool := (- 2 ^ 63 <=? n) && (n <? 2 ^ 63).

(** [torch.tensor(np.array(classes), dtype=torch.int64)], lines 191-192: a
    label outside the signed 64-bit range leaves numpy with an array that
    the conversion refuses with a TypeError. *)
Definition torch_tensor (classes : list Z) : result Tensor1 :=
  if forallb int64_ok classes
  then Ok {| t1_shape := length classes; t1_data := classes |}
  else Raise TypeError.

(** [torch.zeros((0, h, w))] and [torch.zeros((0, 4))] *)
Definition torch_zeros3 (h w : nat) : Tensor3 :=
  {| t3_shape := (0%nat, h, w); t3_data := [] |}.
Definition torch_zeros2 (c : nat) : Tensor2 :=
  {| t2_shape := (0%nat, c); t2_data := [] |}.

Definition shape2_eqb (s t : nat * nat) : bool :=
  Nat.eqb (fst s) (fst t) && Nat.eqb (snd s) (snd t).

(** [torch.stack(xs)]: a non-empty list of arrays of one common shape. *)
Definition torch_stack (xs : list Array2) : result Tensor3 :=
  match xs with
  | [] => Raise RuntimeError
  | x :: _ =>
      if forallb (fun y => shape2_eqb (shape2 y) (shape2 x)) xs
      then Ok {| t3_shape := (length xs, fst (shape2 x), snd (shape2 x));
                 t3_data := xs |}
      else Raise RuntimeError
  end.

Definition nonzero (v : Z) : bool := negb (v =? 0).

(** A mask as booleans, written 0 and 1: nonzero is true. *)
Definition to_bool (m : Array2) : Array2 :=
  map (map (fun v => if nonzero v then 1 else 0)) m.

(** Modelled from the spec: detectron2's [BitMasks] is not under src/. The
    spec gives the output masks as byte/boolean with foreground meaning
    nonzero; the wrapper stores its tensor as booleans. *)
Definition BitMasks (t : Tensor3) : Tensor3 :=
  {| t3_shape := t3_shape t; t3_data := map to_bool (t3_data t) |}.

(** The pixel of row [i] and column [j]. *)
Definition px (m : Array2) (i j : nat) : Z := nth j (nth i m []) 0.

(** Indices of the true entries, in increasing order: [torch.where(l)[0]]. *)
Definition where_true (l : list bool) : list nat :=
  List.filter (fun i => nth i l false) (seq 0 (length l)).

Definition x_any (h w : nat) (m : Array2) : list bool :=
  map (fun j => existsb (fun i => nonzero (px m i j)) (seq 0 h)) (seq 0 w).

Definition y_any (h w : nat) (m : Array2) : list bool :=
  map (fun i => existsb (fun j => nonzero (px m i j)) (seq 0 w)) (seq 0 h).

(** Modelled from the spec: [BitMasks.get_bounding_boxes] belongs to
    detectron2 and is not under src/. Spec, section 8: the box of a mask is
    (min_col, min_row, max_col+1, max_row+1) of its nonzero pixels, and an
    all-zero mask gets a box of zero area. One box per mask: the columns and
    the rows that hold a nonzero pixel are listed, and the box runs from the
    first of each to one past the last of each; a mask without such a pixel
    keeps the row of zeros the box tensor is initialised with. The
    coordinates are float32 in the library; they are whole numbers and are
    kept in [Z]. *)
Definition mask_box (h w : nat) (m : Array2) : list Z :=
  let x := where_true (x_any h w m) in
  let y := where_true (y_any h w m) in
  match x, y with
  | x0 :: _, y0 :: _ =>
      [Z.of_nat x0; Z.of_nat y0;
       Z.of_nat (List.last x 0%nat) + 1; Z.of_nat (List.last y 0%nat) + 1]
  | _, _ => [0; 0; 0; 0]
  end.

Definition get_bounding_boxes (masks : Tensor3) : Tensor2 :=
  let '(n, h, w) := t3_shape masks in
  {| t2_shape := (n, 4%nat); t2_data := map (mask_box h w) (t3_data masks) |}.

(** [Boxes.area()] of one row [x0, y0, x1, y1]. *)
Definition box_area (b : list Z) : Z :=
  (nth 2 b 0 - nth 0 b 0) * (nth 3 b 0 - nth 1 b 0).

Record Instances : Type := {
  image_size : nat * nat;
  gt_classes : Tensor1;
  gt_masks : Tensor3;
  gt_boxes : Tensor2
}.

(** Lines 190-203: from the accumulated masks and classes to the
    [Instances] of the record. *)
Definition make_instances (image_shape : nat * nat)
    (masks : list Array2) (classes : list Z) : result Instances :=
  rbind (torch_tensor classes) (fun gt_classes =>
  if Nat.eqb (length masks) 0 then
    Ok {| image_size := image_shape;
          gt_classes := gt_classes;
          gt_masks := torch_zeros3 (fst image_shape) (snd image_shape);
          gt_boxes := torch_zeros2 4 |}
  else
    rbind (torch_stack masks) (fun stacked =>
      let masks := BitMasks stacked in
      Ok {| image_size := image_shape;
            gt_classes := gt_classes;
            gt_masks := masks;
            gt_boxes := get_bounding_boxes masks |})).

(** ** The mapper *)

Section Mapper.

(** An annotation payload (a list of polygons, or run-length objects) is
    whatever the mask codec accepts. *)
Variable Payload : Type.

(** What a dataset dict holds under its keys. *)
Inductive value : Type :=
| VStr (s : string)
| VInt (n : Z)
| VAnnos (l : list Payload)
| VInts (l : list Z)
| VTensor (t : Array3)
| VInstances (i : Instances).

(** A dict object, and the store of the dict objects alive; a Python
    variable holding a dict holds a reference into the store. *)
Abbreviation dict := (gmap string value).
Abbreviation ref := nat.
Abbreviation store := (gmap nat (gmap string value)).

(** Computations that read and write the store and may raise. What was
    written before an exception stays written. *)
Definition M (A : Type) : Type := store -> store * result A.

Definition ret {A} (a : A) : M A := fun s => (s, Ok a).

Definition bind {A B} (c : M A) (k : A -> M B) : M B :=
  fun s =>
    match c s with
    | (s', Ok a) => k a s'
    | (s', Raise e) => (s', Raise e)
    end.

Definition lift {A} (r : result A) : M A := fun s => (s, r).

Notation "'let*' x ':=' c 'in' k" := (bind c (fun x => k))
  (at level 10, x pattern, c at level 100, k at level 200).

(** [d[key]]. A reference always designates a live object in Python; the
    model answers a dangling one with [TypeError] to stay total. *)
Definition getitem (d : ref) (key : string) : M value :=
  fun s =>
    match s !! d with
    | None => (s, Raise TypeError)
    | Some o =>
        match o !! key with
        | Some v => (s, Ok v)
        | None => (s, Raise (KeyError key))
        end
    end.

(** [d[key] = v] *)
Definition setitem (d : ref) (key : string) (v : value) : M unit :=
  fun s =>
    match s !! d with
    | None => (s, Raise TypeError)
    | Some o => (<[d := <[key := v]> o]> s, Ok tt)
    end.

(** [copy.deepcopy(d)]: a new object with the content of [d]. The values
    are immutable data in this model, so that copying them is sharing
    them. *)
Definition deepcopy (d : ref) : M ref :=
  fun s =>
    match s !! d with
    | None => (s, Raise TypeError)
    | Some o => let d' := fresh (dom s) in (<[d' := o]> s, Ok d')
    end.

Definition as_str (v : value) : result string :=
  match v with VStr s => Ok s | _ => Raise TypeError end.

Definition as_int (v : value) : result Z :=
  match v with VInt n => Ok n | _ => Raise TypeError end.

Definition as_annos (v : value) : result (list Payload) :=
  match v with VAnnos l => Ok l | _ => Raise TypeError end.

Definition as_ints (v : value) : result (list Z) :=
  match v with VInts l => Ok l | _ => Raise TypeError end.

(** [assert b] *)
Definition assert (b : bool) : M unit :=
  lift (if b then Ok tt else Raise AssertionError).

(** The collaborators. *)

(** [self.image_format] *)
Variable image_format : string.

(** [utils.read_image(file_name, format)]: height, width, channel. *)
Variable read_image : string -> string -> result Array3.

(** A transform handle, reduced to its [apply_segmentation]. *)
Definition Transform : Type := Array3 -> Array3.
Definition apply_segmentation (t : Transform) : Array3 -> Array3 := t.

(** [self.augmentations(aug_input)]: the transformed image, left in
    [aug_input.image], and the transform handle. *)
Variable augmentations : Array3 -> Array3 * Transform.

(** [mask.decode(mask.frPyObjects(inst, height, width))] *)
Variable frPyObjects_decode : Payload -> Z -> Z -> result decoded.

Definition agrees (declared : option value) (actual : nat) : bool :=
  match declared with
  | None => true
  | Some (VInt n) => n =? Z.of_nat actual
  | Some _ => false
  end.

(** Modelled from the spec: [utils.check_image_size] belongs to detectron2
    and is not under src/. Spec, section 4.1, step 2: validate that the
    loaded dimensions match any declared dimensions in the record, failing
    with SizeMismatch otherwise. A dimension is declared when the record has
    the key. *)
Definition check_image_size (dataset_dict : ref) (image : Array3) : M unit :=
  fun s =>
    match s !! dataset_dict with
    | None => (s, Raise TypeError)
    | Some o =>
        if agrees (o !! "width") (snd (shape2 image))
           && agrees (o !! "height") (fst (shape2 image))
        then (s, Ok tt)
        else (s, Raise SizeMismatchError)
    end.

(** Lines 182-187: the transformed mask of one instance. *)
Definition instance_mask (transforms : Transform) (inst : Payload)
    (height width : Z) : result Array2 :=
  rbind (frPyObjects_decode inst height width) (fun m =>
  rbind (merge_parts m) (fun m =>
  channel0 (apply_segmentation transforms (add_channel m)))).

(** Lines 181-188: the loop over [zip(instance, labels)], with its two
    accumulators. *)
Fixpoint loop (dataset_dict : ref) (transforms : Transform)
    (pairs : list (Payload * Z)) (masks : list Array2) (classes : list Z)
    : M (list Array2 * list Z) :=
  match pairs with
  | [] => ret (masks, classes)
  | (inst, label) :: pairs' =>
      let* height := getitem dataset_dict "height" in
      let* height := lift (as_int height) in
      let* width := getitem dataset_dict "width" in
      let* width := lift (as_int width) in
      let* m := lift (instance_mask transforms inst height width) in
      loop dataset_dict transforms pairs' (masks ++ [m]) (classes ++ [label])
  end.

(** [zip(a, b)] stops with the shorter of the two. *)
Fixpoint zip {A B} (a : list A) (b : list B) : list (A * B) :=
  match a, b with
  | x :: a', y :: b' => (x, y) :: zip a' b'
  | _, _ => []
  end.

(** [LVISInferenceMapperWithGT.__call__], lines 154-226. *)
Definition __call__ (dataset_dict : ref) : M ref :=
  let* dataset_dict := deepcopy dataset_dict in
  let* file_name := getitem dataset_dict "file_name" in
  let* file_name := lift (as_str file_name) in
  let* image := lift (read_image file_name image_format) in
  let* _ := check_image_size dataset_dict image in
  let '(image, transforms) := augmentations image in
  let image_shape := shape2 image in
  let* _ := setitem dataset_dict "image" (VTensor (transpose_2_0_1 image)) in
  let* instance := getitem dataset_dict "instance" in
  let* instance := lift (as_annos instance) in
  let* _ := assert (Nat.ltb 0 (length instance)) in
  let* labels := getitem dataset_dict "labels" in
  let* labels := lift (as_ints labels) in
  let* (masks, classes) :=
    loop dataset_dict transforms (zip instance labels) [] [] in
  let* instances := lift (make_instances image_shape masks classes) in
  let* _ := setitem dataset_dict "instances" (VInstances instances) in
  ret dataset_dict.

(** ** Vocabulary for the statements *)

(** The mask of the instance of one pair, as the loop body computes it from
    the height and the width the dict [o] declares. *)
Definition row_of (o : gmap string value) (transforms : Transform)
    (p : Payload * Z) (m : Array2) : Prop :=
  exists height width,
    o !! "height" = Some (VInt height) /\ o !! "width" = Some (VInt width) /\
    instance_mask transforms (fst p) height width = Ok m.

(** The dict of the input with the two items that lines 176 and 203
    assign. *)
Definition output_of (d : gmap string value) (image : Array3)
    (insts : Instances) : gmap string value :=
  <["instances" := VInstances insts]>
    (<["image" := VTensor (transpose_2_0_1 image)]> d).

(** A computation that leaves every object but the one at [c] as it is. *)
Definition touches_only {A} (c : ref) (m : M A) : Prop :=
  forall (s : store) (l : ref), l <> c -> fst (m s) !! l = s !! l.

End Mapper.

Arguments VStr {Payload} s.
Arguments VInt {Payload} n.
Arguments VAnnos {Payload} l.
Arguments VInts {Payload} l.
Arguments VTensor {Payload} t.
Arguments VInstances {Payload} i.
Arguments ret {Payload A} a.
Arguments bind {Payload A B} c k.
Arguments lift {Payload A} r.
Arguments getitem {Payload} d key.
Arguments setitem {Payload} d key v.
Arguments deepcopy {Payload} d.
Arguments assert {Payload} b.
Arguments check_image_size {Payload} dataset_dict image.
Arguments instance_mask {Payload} frPyObjects_decode transforms inst height width.
Arguments loop {Payload} frPyObjects_decode dataset_dict transforms pairs masks classes.
Arguments agrees {Payload} declared actual.
Arguments as_str {Payload} v.
Arguments as_int {Payload} v.
Arguments as_annos {Payload} v.
Arguments as_ints {Payload} v.
Arguments row_of {Payload} frPyObjects_decode o transforms p m.
Arguments output_of {Payload} d image insts.
Arguments touches_only {Payload A} c m.

(** ** The merge as the spec words it *)

(** Spec, section 4.1, step 5b: elementwise sum across the parts, then any
    pixel with value > 0 becomes foreground, then the downcast to one byte
    per pixel. *)
Definition binarize (v : Z) : Z := if 0 <? v then 1 else 0.

Definition spec_merge (a : Array3) : Array2 :=
  map (map (fun p => binarize (sumZ p) mod 256)) a.

(** The values of one pixel across the parts. *)
Definition parts_at (a : Array3) (i j : nat) : list Z :=
  nth j (nth i a []) [].

(** Binary parts, and no pixel in the foreground of two of them. *)
Definition binary_disjoint (a : Array3) : Prop :=
  Forall (Forall (fun p => Forall (fun v => v = 0 \/ v = 1) p /\ sumZ p <= 1)) a.

(** ** The tight box as the spec words it *)

(** The columns and the rows of an [h] by [w] mask that hold a nonzero
    pixel. *)
Definition col_used (h w : nat) (m : Array2) (c : nat) : Prop :=
  (c < w)%nat /\ exists r, (r < h)%nat /\ px m r c <> 0.






Definition all_zero (h w : nat) (m : Array2) : Prop :=
  forall r c, (r < h)%nat -> (c < w)%nat -> px m r c = 0.

(** ** A concrete mapper to run the definitions on *)

Module Fixture.

(** Payloads that are their own decoding. *)
Definition codec (inst : decoded) (height width : Z) : result decoded :=
  Ok inst.

(** One file of two rows, three columns and one channel. *)
Definition picture : Array3 := [[[10]; [20]; [30]]; [[40]; [50]; [60]]].

Definition reader (file_name format : string) : result Array3 :=
  if String.eqb file_name "a.png" then Ok picture else Raise IOError.

(** No augmentation. *)
Definition identity (image : Array3) : Array3 * Transform :=
  (image, fun a => a).

Definition mapper : nat -> M decoded nat :=
  __call__ decoded "BGR" reader identity codec.

(** Two parts that share the pixel of row 1, column 0. *)
Definition overlapping : Array3 :=
  [[[1; 0]; [0; 0]; [0; 0]]; [[1; 1]; [0; 1]; [0; 0]]].

(** Two parts that share no pixel. *)
Definition disjoint : Array3 :=
  [[[1; 0]; [0; 0]; [0; 0]]; [[1; 0]; [0; 1]; [0; 0]]].

(** One part without any foreground. *)
Definition occluded : Array3 :=
  [[[0]; [0]; [0]]; [[0]; [0]; [0]]].

Definition record (height width : Z) (instance : list decoded)
    (labels : list Z) : gmap string (value decoded) :=
  <["file_name" := VStr "a.png"]>
    (<["height" := VInt height]>
       (<["width" := VInt width]>
          (<["instance" := VAnnos instance]>
             (<["labels" := VInts labels]> ∅)))).

(** A store whose only object, at reference 0, is the given record. *)
Definition store_of (r : gmap string (value decoded))
    : gmap nat (gmap string (value decoded)) :=
  <[0%nat := r]> ∅.

(** Two instances with their labels, the second one without foreground. *)
Definition two_instances : gmap nat (gmap string (value decoded)) :=
  store_of (record 2 3 [Dec3 disjoint; Dec3 occluded] [5; 7]).

(** No instance at all, with the right and with a wrong declared height. *)
Definition no_instance : gmap nat (gmap string (value decoded)) :=
  store_of (record 2 3 [] []).

Definition no_instance_wrong_height : gmap nat (gmap string (value decoded)) :=
  store_of (record 5 3 [] []).

(** No instance at all, and a file that cannot be read. *)
Definition no_instance_unreadable : gmap nat (gmap string (value decoded)) :=
  store_of (<["file_name" := VStr "missing.png"]> (record 2 3 [] [])).

(** A wrong declared width. *)
Definition wrong_width : gmap nat (gmap string (value decoded)) :=
  store_of (record 2 4 [Dec3 disjoint] [5]).

(** An instance without a label. *)
Definition no_label : gmap nat (gmap string (value decoded)) :=
  store_of (record 2 3 [Dec3 disjoint] []).


End Fixture.

(** ** The constructor and [from_config] *)

Section Config.

(** An augmentation or transform of the framework, and the crop size of
    the configuration (a pair of floats), are opaque here. *)
Variable Augmentation : Type.
Variable CropSize : Type.

(** The entries of the configuration node that [from_config] reads. *)
Record CfgNode : Type := {
  INPUT_CROP_ENABLED : bool;
  INPUT_CROP_TYPE : string;
  INPUT_CROP_SIZE : CropSize;
  INPUT_FORMAT : string;
  INPUT_MASK_FORMAT : string;
  MODEL_MASK_ON : bool;
  MODEL_KEYPOINT_ON : bool;
  MODEL_LOAD_PROPOSALS : bool;
  DATASETS_TRAIN : list string;
  DATASETS_PRECOMPUTED_PROPOSAL_TOPK_TRAIN : Z;
  DATASETS_PRECOMPUTED_PROPOSAL_TOPK_TEST : Z
}.

(** [utils.build_augmentation], [T.RandomCrop] and
    [utils.create_keypoint_hflip_indices]. *)
Variable build_augmentation : CfgNode -> bool -> list Augmentation.
Variable RandomCrop : string -> CropSize -> Augmentation.
Variable create_keypoint_hflip_indices : list string -> list Z.

(** The keyword dict that [from_config] returns. Its last two keys are
    set under a condition only: [None] is an absent key. *)
Record Kwargs : Type := {
  kw_is_train : bool;
  kw_augmentations : list Augmentation;
  kw_image_format : string;
  kw_use_instance_mask : bool;
  kw_instance_mask_format : string;
  kw_use_keypoint : bool;
  kw_recompute_boxes : bool;
  kw_keypoint_hflip_indices : option (list Z);
  kw_precomputed_proposal_topk : option Z
}.

(** Lines 95-123. [augs.insert(0, x)] puts [x] in front. *)
Definition from_config (cfg : CfgNode) (is_train : bool) : Kwargs :=
  let augs := build_augmentation cfg is_train in
  let '(augs, recompute_boxes) :=
    if INPUT_CROP_ENABLED cfg && is_train
    then (RandomCrop (INPUT_CROP_TYPE cfg) (INPUT_CROP_SIZE cfg) :: augs,
          MODEL_MASK_ON cfg)
    else (augs, false) in
  {| kw_is_train := is_train;
     kw_augmentations := augs;
     kw_image_format := INPUT_FORMAT cfg;
     kw_use_instance_mask := MODEL_MASK_ON cfg;
     kw_instance_mask_format := INPUT_MASK_FORMAT cfg;
     kw_use_keypoint := MODEL_KEYPOINT_ON cfg;
     kw_recompute_boxes := recompute_boxes;
     kw_keypoint_hflip_indices :=
       if MODEL_KEYPOINT_ON cfg
       then Some (create_keypoint_hflip_indices (DATASETS_TRAIN cfg))
       else None;
     kw_precomputed_proposal_topk :=
       if MODEL_LOAD_PROPOSALS cfg
       then Some (if is_train
                  then DATASETS_PRECOMPUTED_PROPOSAL_TOPK_TRAIN cfg
                  else DATASETS_PRECOMPUTED_PROPOSAL_TOPK_TEST cfg)
       else None |}.

(** The attributes of a mapper object. *)
Record Self : Type := {
  is_train : bool;
  self_augmentations : list Augmentation;
  self_image_format : string;
  use_instance_mask : bool;
  instance_mask_format : string;
  use_keypoint : bool;
  keypoint_hflip_indices : option (list Z);
  proposal_topk : option Z;
  recompute_boxes : bool
}.

(** Lines 43-88, without the log line. The optional arguments default to
    [None]. *)
Definition __init__ (is_train : bool) (augmentations : list Augmentation)
    (image_format : string) (use_instance_mask use_keypoint : bool)
    (instance_mask_format : string)
    (keypoint_hflip_indices : option (list Z))
    (precomputed_proposal_topk : option Z) (recompute_boxes : bool)
    : result Self :=
  if recompute_boxes && negb use_instance_mask then Raise AssertionError
  else Ok {| is_train := is_train;
             self_augmentations := augmentations;
             self_image_format := image_format;
             use_instance_mask := use_instance_mask;
             instance_mask_format := instance_mask_format;
             use_keypoint := use_keypoint;
             keypoint_hflip_indices := keypoint_hflip_indices;
             proposal_topk := precomputed_proposal_topk;
             recompute_boxes := recompute_boxes |}.

(** [LVISInferenceMapperWithGT(cfg, is_train)]: the [configurable]
    decorator calls [__init__] with the keywords of [from_config]. *)
Definition configured (cfg : CfgNode) (is_train : bool) : result Self :=
  let kw := from_config cfg is_train in
  __init__ (kw_is_train kw) (kw_augmentations kw) (kw_image_format kw)
           (kw_use_instance_mask kw) (kw_use_keypoint kw)
           (kw_instance_mask_format kw) (kw_keypoint_hflip_indices kw)
           (kw_precomputed_proposal_topk kw) (kw_recompute_boxes kw).

End Config.

Arguments INPUT_CROP_ENABLED {CropSize} c.
Arguments INPUT_CROP_TYPE {CropSize} c.
Arguments INPUT_CROP_SIZE {CropSize} c.
Arguments INPUT_FORMAT {CropSize} c.
Arguments INPUT_MASK_FORMAT {CropSize} c.
Arguments MODEL_MASK_ON {CropSize} c.
Arguments MODEL_KEYPOINT_ON {CropSize} c.
Arguments MODEL_LOAD_PROPOSALS {CropSize} c.
Arguments DATASETS_TRAIN {CropSize} c.
Arguments DATASETS_PRECOMPUTED_PROPOSAL_TOPK_TRAIN {CropSize} c.
Arguments DATASETS_PRECOMPUTED_PROPOSAL_TOPK_TEST {CropSize} c.
Arguments kw_is_train {Augmentation} k.
Arguments kw_augmentations {Augmentation} k.
Arguments kw_image_format {Augmentation} k.
Arguments kw_use_instance_mask {Augmentation} k.
Arguments kw_instance_mask_format {Augmentation} k.
Arguments kw_use_keypoint {Augmentation} k.
Arguments kw_recompute_boxes {Augmentation} k.
Arguments kw_keypoint_hflip_indices {Augmentation} k.
Arguments kw_precomputed_proposal_topk {Augmentation} k.
Arguments is_train {Augmentation} s.
Arguments self_augmentations {Augmentation} s.
Arguments self_image_format {Augmentation} s.
Arguments use_instance_mask {Augmentation} s.
Arguments instance_mask_format {Augmentation} s.
Arguments use_keypoint {Augmentation} s.
Arguments keypoint_hflip_indices {Augmentation} s.
Arguments proposal_topk {Augmentation} s.
Arguments recompute_boxes {Augmentation} s.
Arguments from_config {Augmentation CropSize} build_augmentation RandomCrop
  create_keypoint_hflip_indices cfg is_train.
Arguments __init__ {Augmentation} is_train augmentations image_format
  use_instance_mask use_keypoint instance_mask_format keypoint_hflip_indices
  precomputed_proposal_topk recompute_boxes.
Arguments configured {Augmentation CropSize} build_augmentation RandomCrop
  create_keypoint_hflip_indices cfg is_train.

(** ** [_transform_annotations] *)

Section Annotations.

(** What an annotation holds under its keys besides integers (polygons,
    boxes, keypoints) is a payload of [value]. *)
Variable Field : Type.
Variable Augmentation : Type.

(** An annotation is a dict object of its own. The annotation objects
    live in a store beside the store of the dataset dicts, and a dataset
    dict holds under 'annotations' the list of the references of its
    annotations: what is popped from an annotation is gone for everyone
    who holds that annotation. *)
Local Abbreviation annotation := (gmap string (value Field)).
Local Abbreviation dicts := (gmap nat (gmap string (value nat))).
Local Abbreviation annotations := (gmap nat (gmap string (value Field))).

(** Computations on the two stores that may raise. *)
Definition MA (A : Type) : Type :=
  dicts * annotations -> (dicts * annotations) * result A.

Definition retA {A} (a : A) : MA A := fun st => (st, Ok a).

Definition bindA {A B} (c : MA A) (k : A -> MA B) : MA B :=
  fun st =>
    match c st with
    | (st', Ok a) => k a st'
    | (st', Raise e) => (st', Raise e)
    end.

Definition liftA {A} (r : result A) : MA A := fun st => (st, r).

(** A computation on the dataset dicts alone. *)
Definition on_dicts {A} (c : M nat A) : MA A :=
  fun st =>
    match c (fst st) with
    | (ds, r) => ((ds, snd st), r)
    end.

Local Notation "'let*' x ':=' c 'in' k" := (bindA c (fun x => k))
  (at level 10, x pattern, c at level 100, k at level 200).

(** The transforms that [_transform_annotations] is handed. *)
Variable TransformList : Type.

(** [utils.transform_instance_annotations], [utils.annotations_to_instances],
    [instances.gt_masks.get_bounding_boxes()] for the mask format in use,
    and [utils.filter_empty_instances], taken as functions of the content of
    the annotations they are given, which write nothing. *)
Variable transform_instance_annotations :
  annotation -> TransformList -> nat * nat -> option (list Z) ->
  result annotation.
Variable annotations_to_instances :
  list annotation -> nat * nat -> string -> result Instances.
Variable gt_masks_get_bounding_boxes : Instances -> result Tensor2.
Variable filter_empty_instances : Instances -> Instances.

(** [d.pop(key)] on a dataset dict. *)
Definition dict_pop (d : nat) (key : string) : M nat (value nat) :=
  fun s =>
    match s !! d with
    | None => (s, Raise TypeError)
    | Some o =>
        match o !! key with
        | Some v => (<[d := delete key o]> s, Ok v)
        | None => (s, Raise (KeyError key))
        end
    end.

(** [anno.pop(key, None)] on an annotation object: the key is dropped from
    the object if it is there. *)
Definition anno_pop (anno : nat) (key : string) : MA unit :=
  fun st =>
    match snd st !! anno with
    | None => (st, Raise TypeError)
    | Some a => ((fst st, <[anno := delete key a]> (snd st)), Ok tt)
    end.

(** The content of an annotation object, as [obj.get] and the transform
    read it. *)
Definition anno_read (obj : nat) : MA annotation :=
  fun st =>
    match snd st !! obj with
    | None => (st, Raise TypeError)
    | Some a => (st, Ok a)
    end.

(** Lines 128-131: the body of the first loop. *)
Definition strip_one (self : Self Augmentation) (anno : nat) : MA unit :=
  let* _ := (if use_instance_mask self then retA tt
             else anno_pop anno "segmentation") in
  if use_keypoint self then retA tt else anno_pop anno "keypoints".

(** Lines 127-131: the first loop. *)
Fixpoint strip_loop (self : Self Augmentation) (annos : list nat) : MA unit :=
  match annos with
  | [] => retA tt
  | anno :: annos' =>
      let* _ := strip_one self anno in
      strip_loop self annos'
  end.

(** [obj.get("iscrowd", 0) == 0] *)
Definition not_crowd (obj : annotation) : bool :=
  match obj !! "iscrowd" with
  | None => true
  | Some (VInt n) => n =? 0
  | Some _ => false
  end.

(** Lines 134-140: the list comprehension over the popped list. *)
Fixpoint transform_loop (self : Self Augmentation) (objs : list nat)
    (transforms : TransformList) (image_shape : nat * nat)
    : MA (list annotation) :=
  match objs with
  | [] => retA []
  | obj :: objs' =>
      let* o := anno_read obj in
      if not_crowd o then
        let* anno := liftA (transform_instance_annotations o transforms
                              image_shape (keypoint_hflip_indices self)) in
        let* annos := transform_loop self objs' transforms image_shape in
        retA (anno :: annos)
      else transform_loop self objs' transforms image_shape
  end.

Definition set_gt_boxes (i : Instances) (b : Tensor2) : Instances :=
  {| image_size := image_size i; gt_classes := gt_classes i;
     gt_masks := gt_masks i; gt_boxes := b |}.

(** Lines 125-152. *)
Definition _transform_annotations (self : Self Augmentation)
    (dataset_dict : nat) (transforms : TransformList)
    (image_shape : nat * nat) : MA unit :=
  let* annos := on_dicts (getitem dataset_dict "annotations") in
  let* annos := liftA (as_annos annos) in
  let* _ := strip_loop self annos in
  let* objs := on_dicts (dict_pop dataset_dict "annotations") in
  let* objs := liftA (as_annos objs) in
  let* annos := transform_loop self objs transforms image_shape in
  let* instances :=
    liftA (annotations_to_instances annos image_shape
                                    (instance_mask_format self)) in
  let* instances :=
    (if recompute_boxes self
     then let* boxes := liftA (gt_masks_get_bounding_boxes instances) in
          retA (set_gt_boxes instances boxes)
     else retA instances) in
  on_dicts (setitem dataset_dict "instances"
                    (VInstances (filter_empty_instances instances))).

(** What the body of the first loop makes of the content of one
    annotation. *)
Definition strip (self : Self Augmentation) (anno : annotation) : annotation :=
  let anno := if use_instance_mask self then anno
              else delete "segmentation" anno in
  if use_keypoint self then anno else delete "keypoints" anno.

(** Lines 134-152 without the stores: the instances that the contents of
    the annotations left by the first loop give. *)
Definition instances_of (self : Self Augmentation) (objs : list annotation)
    (transforms : TransformList) (image_shape : nat * nat)
    : result Instances :=
  rbind (rmapM (fun obj => transform_instance_annotations obj transforms
                             image_shape (keypoint_hflip_indices self))
               (List.filter not_crowd objs)) (fun annos =>
  rbind (annotations_to_instances annos image_shape
                                  (instance_mask_format self)) (fun base =>
  rbind (if recompute_boxes self
         then rbind (gt_masks_get_bounding_boxes base)
                    (fun boxes => Ok (set_gt_boxes base boxes))
         else Ok base) (fun instances =>
  Ok (filter_empty_instances instances)))).

(** The annotation objects of [refs] are those of [before] after the first
    loop, the other objects are as in [before]. *)
Definition stripped (self : Self Augmentation) (refs : list nat)
    (before after : annotations) : Prop :=
  forall r, after !! r = if decide (r ∈ refs)
                         then strip self <$> before !! r
                         else before !! r.

End Annotations.

Arguments MA Field A : clear implicits.
Arguments retA {Field A} a.
Arguments bindA {Field A B} c k.
Arguments liftA {Field A} r.
Arguments on_dicts {Field A} c.
Arguments anno_pop {Field} anno key.
Arguments anno_read {Field} obj.
Arguments strip_one {Field Augmentation} self anno.
Arguments strip_loop {Field Augmentation} self annos.
Arguments transform_loop {Field Augmentation TransformList}
  transform_instance_annotations self objs transforms image_shape.
Arguments strip {Field Augmentation} self anno.
Arguments not_crowd {Field} obj.
Arguments stripped {Field Augmentation} self refs before after.
Arguments _transform_annotations {Field Augmentation TransformList}
  transform_instance_annotations annotations_to_instances
  gt_masks_get_bounding_boxes filter_empty_instances self dataset_dict
  transforms image_shape.
Arguments instances_of {Field Augmentation TransformList}
  transform_instance_annotations annotations_to_instances
  gt_masks_get_bounding_boxes filter_empty_instances self objs transforms
  image_shape.

(** ** More vocabulary *)

(** How many parts have the pixel in their foreground. *)
Definition covering (p : list Z) : nat := length (List.filter nonzero p).

(** The pixel of channel [c], row [i], column [j] of a channel-first
    tensor, and of channel [c] of a channel-last image. *)
Definition at_chw (t : Array3) (c i j : nat) : Z :=
  nth j (nth i (nth c t []) []) 0.
Definition at_hwc (image : Array3) (i j c : nat) : Z :=
  nth c (nth j (nth i image []) []) 0.

(** ** More concrete inputs *)

Module Examples.

(** Records that lack a key. *)
Definition no_file_name : gmap nat (gmap string (value decoded)) :=
  Fixture.store_of
    (delete "file_name" (Fixture.record 2 3 [Dec3 Fixture.disjoint] [5])).

Definition no_instance_key : gmap nat (gmap string (value decoded)) :=
  Fixture.store_of (delete "instance" (Fixture.record 2 3 [] [5])).

Definition no_labels_key : gmap nat (gmap string (value decoded)) :=
  Fixture.store_of
    (delete "labels" (Fixture.record 2 3 [Dec3 Fixture.disjoint] [])).

(** A second instance given as a single run-length object, which decodes
    to two dimensions. *)
Definition run_length_record : gmap string (value decoded) :=
  Fixture.record 2 3 [Dec3 Fixture.disjoint; Dec2 [[1; 0; 0]; [0; 0; 0]]]
                 [5; 7].

(** A codec that rejects a payload. *)
Definition strict_codec (inst : option decoded) (height width : Z)
    : result decoded :=
  match inst with
  | Some m => Ok m
  | None => Raise DecodeError
  end.

Definition strict_mapper : nat -> M (option decoded) nat :=
  __call__ (option decoded) "BGR" Fixture.reader Fixture.identity strict_codec.

Definition undecodable_record : gmap string (value (option decoded)) :=
  <["file_name" := VStr "a.png"]>
    (<["height" := VInt 2]>
       (<["width" := VInt 3]>
          (<["instance" := VAnnos [Some (Dec3 Fixture.disjoint); None]]>
             (<["labels" := VInts [5; 7]]> ∅)))).


(** A configuration with cropping and masks on, augmentations named by
    strings. *)
Definition cfg : CfgNode (Z * Z) :=
  {| INPUT_CROP_ENABLED := true;
     INPUT_CROP_TYPE := "relative_range";
     INPUT_CROP_SIZE := (9, 9);
     INPUT_FORMAT := "BGR";
     INPUT_MASK_FORMAT := "bitmask";
     MODEL_MASK_ON := true;
     MODEL_KEYPOINT_ON := false;
     MODEL_LOAD_PROPOSALS := true;
     DATASETS_TRAIN := ["lvis_v1_train"];
     DATASETS_PRECOMPUTED_PROPOSAL_TOPK_TRAIN := 2000;
     DATASETS_PRECOMPUTED_PROPOSAL_TOPK_TEST := 1000 |}.

Definition build_augmentation (c : CfgNode (Z * Z)) (train : bool)
    : list string :=
  if train then ["ResizeShortestEdge"; "RandomFlip"]
  else ["ResizeShortestEdge"].

Definition RandomCrop (crop_type : string) (crop_size : Z * Z) : string :=
  "RandomCrop".

Definition create_keypoint_hflip_indices (names : list string) : list Z := [].

(** A mapper without masks and keypoints. *)
Definition plain_self : Self string :=
  {| is_train := false;
     self_augmentations := ["ResizeShortestEdge"];
     self_image_format := "BGR";
     use_instance_mask := false;
     instance_mask_format := "polygon";
     use_keypoint := false;
     keypoint_hflip_indices := None;
     proposal_topk := None;
     recompute_boxes := false |}.

(** Annotations whose fields are integers; a transform that fails on an
    annotation with a 'broken' key and returns the others as they are; a
    conversion that keeps the category ids. *)
Definition transform (anno : gmap string (value unit)) (t : unit)
    (image_shape : nat * nat) (hflip : option (list Z))
    : result (gmap string (value unit)) :=
  match anno !! "broken" with
  | Some _ => Raise DecodeError
  | None => Ok anno
  end.

Definition category (anno : gmap string (value unit)) : Z :=
  match anno !! "category_id" with
  | Some (VInt n) => n
  | _ => 0
  end.

Definition to_instances (annos : list (gmap string (value unit)))
    (image_shape : nat * nat) (mask_format : string) : result Instances :=
  Ok {| image_size := image_shape;
        gt_classes := {| t1_shape := length annos;
                         t1_data := map category annos |};
        gt_masks := torch_zeros3 (fst image_shape) (snd image_shape);
        gt_boxes := torch_zeros2 4 |}.

Definition boxes_of (i : Instances) : result Tensor2 :=
  Ok (get_bounding_boxes (gt_masks i)).

Definition transform_annotations
    : Self string -> nat -> unit -> nat * nat -> MA unit unit :=
  _transform_annotations transform to_instances boxes_of (fun i => i).

Definition object (category_id iscrowd : Z) : gmap string (value unit) :=
  <["category_id" := VInt category_id]>
    (<["iscrowd" := VInt iscrowd]>
       (<["segmentation" := VInt 0]> ∅)).

(** A dataset dict whose annotations are the objects at the given
    references, alone in its store at reference 0. *)
Definition annotated (refs : list nat) : gmap string (value nat) :=
  <["file_name" := VStr "a.png"]> (<["annotations" := VAnnos refs]> ∅).

Definition dict_store (d : gmap string (value nat))
    : gmap nat (gmap string (value nat)) :=
  <[0%nat := d]> ∅.

(** Two annotation objects, the second one crowd; and two of which the
    second makes the transform fail. *)
Definition two_objects : gmap nat (gmap string (value unit)) :=
  <[0%nat := object 5 0]> (<[1%nat := object 7 1]> ∅).


End Examples.

(** ** Arithmetic of the merge *)

Lemma mod_2_64_256 (x : Z) : (x mod 2 ^ 64) mod 256 = x mod 256.
Proof.
  apply Z.mod_mod_divide. exists (2 ^ 56). reflexivity.
Qed.

Lemma merge_parts_Dec3 (a : Array3) :
  merge_parts (Dec3 a) = Ok (map (map (fun p => sumZ p mod 256)) a).
Proof.
  unfold merge_parts, np_sum_axis2, astype_uint8. simpl. f_equal.
  rewrite map_map. apply map_ext. intros row.
  rewrite map_map. apply map_ext. intros p. apply mod_2_64_256.
Qed.

Lemma sumZ_binary_nonneg (p : list Z) :
  Forall (fun v => v = 0 \/ v = 1) p -> 0 <= sumZ p.
Proof. induction 1 as [|v p Hv _ IH]; simpl; lia. Qed.

Lemma sumZ_binary_one (p : list Z) :
  Forall (fun v => v = 0 \/ v = 1) p ->
  (sumZ p = 0 -> forall k, nth k p 0 = 0) /\
  (1 <= sumZ p -> exists k, nth k p 0 = 1).
Proof.
  induction 1 as [|v p Hv Hp [IH0 IH1]]; simpl.
  - split; [intros _ [|k]; reflexivity | lia].
  - pose proof (sumZ_binary_nonneg p Hp) as Hnn. split.
    + intros Hs [|k]; [lia | apply IH0; lia].
    + intros Hs. destruct Hv as [->| ->].
      * destruct IH1 as [k Hk]; [lia |]. exists (S k). exact Hk.
      * exists 0%nat. reflexivity.
Qed.

Lemma px_map_map (f : list Z -> Z) (a : Array3) (i j : nat) :
  f [] = 0 -> px (map (map f) a) i j = f (parts_at a i j).
Proof.
  intros Hf. unfold px, parts_at.
  change (@nil Z) with (map f []) at 1.
  rewrite (map_nth (map f) a [] i).
  rewrite <- Hf at 1. apply map_nth.
Qed.

Lemma binary_disjoint_at (a : Array3) (i j : nat) :
  binary_disjoint a ->
  Forall (fun v => v = 0 \/ v = 1) (parts_at a i j) /\ sumZ (parts_at a i j) <= 1.
Proof.
  intros Ha. unfold parts_at.
  destruct (nth_in_or_default i a []) as [Hi | ->].
  - unfold binary_disjoint in Ha. rewrite Forall_forall in Ha.
    specialize (Ha _ (proj2 (list_elem_of_In _ _) Hi)).
    destruct (nth_in_or_default j (nth i a []) []) as [Hj | ->].
    + rewrite Forall_forall in Ha.
      exact (Ha _ (proj2 (list_elem_of_In _ _) Hj)).
    + split; [constructor | simpl; lia].
  - destruct j; simpl; (split; [constructor | lia]).
Qed.

Lemma pixel_binary_disjoint (p : list Z) :
  Forall (fun v => v = 0 \/ v = 1) p -> sumZ p <= 1 ->
  sumZ p mod 256 = binarize (sumZ p) mod 256 /\
  (binarize (sumZ p) mod 256 = 0 \/ binarize (sumZ p) mod 256 = 1) /\
  (binarize (sumZ p) mod 256 = 1 <-> exists k, nth k p 0 = 1).
Proof.
  intros Hb Hle.
  pose proof (sumZ_binary_nonneg p Hb) as Hnn.
  destruct (sumZ_binary_one p Hb) as [H0 H1].
  assert (sumZ p = 0 \/ sumZ p = 1) as [Hs | Hs] by lia.
  - rewrite Hs. cbn. split; [reflexivity |]. split; [left; reflexivity |].
    split; [discriminate |]. intros [k Hk]. rewrite (H0 Hs k) in Hk. discriminate.
  - rewrite Hs. cbn. split; [reflexivity |]. split; [right; reflexivity |].
    split; [intros _; apply H1; lia | reflexivity].
Qed.

(** ** C2: the merge of the parts of one instance *)

(** C2, as stated, fails: a pixel that two parts cover is merged to 2. The
    sum is downcast, it is not binarized. *)
Lemma merge_parts_overlap_not_binarized :
  merge_parts (Dec3 Fixture.overlapping) = Ok [[1; 0; 0]; [2; 1; 0]] /\
  spec_merge Fixture.overlapping = [[1; 0; 0]; [1; 1; 0]] /\
  merge_parts (Dec3 Fixture.overlapping) <> Ok (spec_merge Fixture.overlapping).
Proof.
  split; [reflexivity |]. split; [reflexivity |]. discriminate.
Qed.

(** C2 (amended): the merged mask of an instance with parts is the
    elementwise sum of the part masks reduced modulo 256 by the downcast to
    uint8; nothing binarizes it at this step. When the parts are binary and
    no pixel lies in two of them, that is the binarized sum: every pixel is
    0 or 1, and a pixel is foreground exactly when it is foreground in one
    of the parts (the union). *)
Theorem merge_parts_sum_downcast (a : Array3) :
  merge_parts (Dec3 a) = Ok (map (map (fun p => sumZ p mod 256)) a) /\
  (binary_disjoint a ->
   merge_parts (Dec3 a) = Ok (spec_merge a) /\
   forall i j : nat,
     (px (spec_merge a) i j = 0 \/ px (spec_merge a) i j = 1) /\
     (px (spec_merge a) i j = 1 <-> exists k, nth k (parts_at a i j) 0 = 1)).
Proof.
  split; [apply merge_parts_Dec3 |].
  intros Ha. split.
  - rewrite merge_parts_Dec3. f_equal. unfold spec_merge.
    unfold binary_disjoint in Ha.
    apply map_ext_in. intros row Hrow.
    rewrite Forall_forall in Ha.
    specialize (Ha _ (proj2 (list_elem_of_In _ _) Hrow)).
    apply map_ext_in. intros p Hp.
    rewrite Forall_forall in Ha.
    destruct (Ha _ (proj2 (list_elem_of_In _ _) Hp)) as [Hb Hle].
    apply (pixel_binary_disjoint p Hb Hle).
  - intros i j. unfold spec_merge.
    rewrite (px_map_map (fun p => binarize (sumZ p) mod 256)) by reflexivity.
    destruct (binary_disjoint_at a i j Ha) as [Hb Hle].
    apply (pixel_binary_disjoint _ Hb Hle).
Qed.

(** Two parts that share no pixel: the witness of the amended C2. *)
Lemma merge_parts_sum_downcast_witness :
  binary_disjoint Fixture.disjoint /\
  merge_parts (Dec3 Fixture.disjoint) = Ok (spec_merge Fixture.disjoint) /\
  spec_merge Fixture.disjoint = [[1; 0; 0]; [1; 1; 0]].
Proof.
  assert (Hd : binary_disjoint Fixture.disjoint).
  { unfold binary_disjoint, Fixture.disjoint.
    repeat first [ apply List.Forall_nil | apply List.Forall_cons
                 | left; reflexivity | right; reflexivity
                 | vm_compute; discriminate | split ]. }
  split; [exact Hd |].
  split; [exact (proj1 (proj2 (merge_parts_sum_downcast Fixture.disjoint) Hd)) |].
  reflexivity.
Defined.

(** ** Boxes from masks *)

Lemma nonzero_true (v : Z) : nonzero v = true <-> v <> 0.
Proof. unfold nonzero. rewrite negb_true_iff, Z.eqb_neq. reflexivity. Qed.

Lemma existsb_seq (g : nat -> bool) (n : nat) :
  existsb g (seq 0 n) = true <-> exists i, (i < n)%nat /\ g i = true.
Proof.
  rewrite existsb_exists. split.
  - intros [i [Hi Hg]]. apply in_seq in Hi. exists i. split; [lia | exact Hg].
  - intros [i [Hi Hg]]. exists i. split; [apply in_seq; lia | exact Hg].
Qed.

Lemma where_true_map_seq (g : nat -> bool) (n : nat) :
  where_true (map g (seq 0 n)) = List.filter g (seq 0 n).
Proof.
  unfold where_true. rewrite length_map, length_seq.
  apply List.filter_ext_in. intros i Hi. apply in_seq in Hi.
  rewrite (nth_indep _ false (g 0%nat)) by (rewrite length_map, length_seq; lia).
  rewrite map_nth, seq_nth by lia. reflexivity.
Qed.

Lemma filter_seq_first (g : nat -> bool) (n a x : nat) (t : list nat) :
  List.filter g (seq a n) = x :: t ->
  g x = true /\ (a <= x < a + n)%nat /\
  forall k, (a <= k < a + n)%nat -> g k = true -> (x <= k)%nat.
Proof.
  revert a. induction n as [|n IH]; intros a; simpl; [discriminate |].
  destruct (g a) eqn:Hga.
  - intros [= <- _]. split; [exact Hga |]. split; [lia |]. intros k Hk _. lia.
  - intros Hf. destruct (IH _ Hf) as [Hx [Hr Hmin]].
    split; [exact Hx |]. split; [lia |]. intros k Hk Hgk.
    assert (k <> a) by (intros ->; congruence).
    apply Hmin; [lia | exact Hgk].
Qed.



Lemma col_used_any (h w : nat) (m : Array2) (c : nat) :
  (c < w)%nat ->
  existsb (fun i => nonzero (px m i c)) (seq 0 h) = true <-> col_used h w m c.
Proof.
  intros Hc. rewrite existsb_seq. unfold col_used. split.
  - intros [r [Hr Hnz]]. split; [exact Hc |]. exists r.
    split; [exact Hr | apply nonzero_true; exact Hnz].
  - intros [_ [r [Hr Hnz]]]. exists r.
    split; [exact Hr | apply nonzero_true; exact Hnz].
Qed.


Lemma mask_box_unfold (h w : nat) (m : Array2) :
  mask_box h w m =
  match List.filter (fun j => existsb (fun i => nonzero (px m i j)) (seq 0 h))
                    (seq 0 w),
        List.filter (fun i => existsb (fun j => nonzero (px m i j)) (seq 0 w))
                    (seq 0 h)
  with
  | x0 :: tx, y0 :: ty =>
      [Z.of_nat x0; Z.of_nat y0;
       Z.of_nat (List.last (x0 :: tx) 0%nat) + 1;
       Z.of_nat (List.last (y0 :: ty) 0%nat) + 1]
  | _, _ => [0; 0; 0; 0]
  end.
Proof.
  unfold mask_box, x_any, y_any. rewrite !where_true_map_seq.
  destruct (List.filter _ (seq 0 w)); [reflexivity |].
  destruct (List.filter _ (seq 0 h)); reflexivity.
Qed.


Lemma mask_box_all_zero (h w : nat) (m : Array2) :
  all_zero h w m -> mask_box h w m = [0; 0; 0; 0].
Proof.
  intros Hz. rewrite mask_box_unfold.
  destruct (List.filter _ (seq 0 w)) as [|x0 tx] eqn:Ex; [reflexivity |].
  exfalso.
  destruct (filter_seq_first _ w 0 x0 tx Ex) as [Hx0 [Rx0 _]].
  apply (col_used_any h w m x0) in Hx0; [| lia].
  destruct Hx0 as [Hc [r [Hr Hnz]]]. apply Hnz. apply Hz; assumption.
Qed.

(** ** The final stage: [Instances] from the accumulators *)

Lemma torch_stack_Ok (xs : list Array2) (t : Tensor3) :
  torch_stack xs = Ok t ->
  exists h w, t = {| t3_shape := (length xs, h, w); t3_data := xs |} /\
              Forall (fun x => shape2 x = (h, w)) xs.
Proof.
  unfold torch_stack. destruct xs as [|x xs']; [discriminate |].
  destruct (forallb _ _) eqn:Hall; [| discriminate].
  intros [= <-]. exists (fst (shape2 x)), (snd (shape2 x)).
  split; [reflexivity |].
  rewrite forallb_forall in Hall. apply List.Forall_forall. intros y Hy.
  specialize (Hall y Hy). unfold shape2_eqb in Hall.
  apply andb_true_iff in Hall as [H1 H2].
  apply Nat.eqb_eq in H1, H2. destruct (shape2 y), (shape2 x); simpl in *.
  congruence.
Qed.

Lemma torch_tensor_Ok (classes : list Z) (t : Tensor1) :
  torch_tensor classes = Ok t ->
  t = {| t1_shape := length classes; t1_data := classes |} /\
  Forall (fun n => - 2 ^ 63 <= n < 2 ^ 63) classes.
Proof.
  unfold torch_tensor. destruct (forallb int64_ok classes) eqn:Hall;
    [| discriminate].
  intros [= <-]. split; [reflexivity |].
  rewrite forallb_forall in Hall. apply List.Forall_forall. intros n Hn.
  specialize (Hall n Hn). unfold int64_ok in Hall.
  apply andb_true_iff in Hall as [H1 H2].
  apply Z.leb_le in H1. apply Z.ltb_lt in H2. lia.
Qed.


Lemma make_instances_nil (image_shape : nat * nat) :
  make_instances image_shape [] [] =
  Ok {| image_size := image_shape;
        gt_classes := {| t1_shape := 0; t1_data := [] |};
        gt_masks := {| t3_shape := (0%nat, fst image_shape, snd image_shape);
                       t3_data := [] |};
        gt_boxes := {| t2_shape := (0%nat, 4%nat); t2_data := [] |} |}.
Proof. reflexivity. Qed.

Lemma make_instances_Ok (image_shape : nat * nat) (masks : list Array2)
    (classes : list Z) (insts : Instances) :
  make_instances image_shape masks classes = Ok insts ->
  exists h w,
    insts = {| image_size := image_shape;
               gt_classes := {| t1_shape := length classes;
                                t1_data := classes |};
               gt_masks := {| t3_shape := (length masks, h, w);
                              t3_data := map to_bool masks |};
               gt_boxes := {| t2_shape := (length masks, 4%nat);
                              t2_data := map (mask_box h w)
                                             (map to_bool masks) |} |}.
Proof.
  unfold make_instances.
  destruct (torch_tensor classes) as [tc|ec] eqn:Htc; [| discriminate].
  apply torch_tensor_Ok in Htc as [-> _]. simpl rbind at 1.
  destruct masks as [|m masks'].
  - simpl. intros [= <-]. exists (fst image_shape), (snd image_shape).
    reflexivity.
  - change (Nat.eqb (length (m :: masks')) 0) with false. cbv iota.
    destruct (torch_stack (m :: masks')) as [t|e] eqn:Hst; [| discriminate].
    apply torch_stack_Ok in Hst as [h [w [-> _]]].
    simpl. intros [= <-]. exists h, w. reflexivity.
Qed.




(** ** The steps of the monad, one at a time *)

Section Steps.

Context {Payload : Type}.

Local Abbreviation store := (gmap nat (gmap string (value Payload))).

Lemma bind_Ok_inv {A B} (c : M Payload A) (k : A -> M Payload B)
    (s s' : store) (b : B) :
  bind c k s = (s', Ok b) ->
  exists a s1, c s = (s1, Ok a) /\ k a s1 = (s', Ok b).
Proof.
  unfold bind. destruct (c s) as [s1 [a|e]]; [| discriminate].
  intros H. exists a, s1. split; [reflexivity | exact H].
Qed.

Lemma bind_Ok {A B} (c : M Payload A) (k : A -> M Payload B)
    (s s1 : store) (a : A) :
  c s = (s1, Ok a) -> bind c k s = k a s1.
Proof. unfold bind. intros ->. reflexivity. Qed.

Lemma bind_Raise {A B} (c : M Payload A) (k : A -> M Payload B)
    (s s1 : store) (e : exn) :
  c s = (s1, Raise e) -> bind c k s = (s1, Raise e).
Proof. unfold bind. intros ->. reflexivity. Qed.

Lemma lift_Ok_inv {A} (r : result A) (s s' : store) (a : A) :
  lift r s = (s', Ok a) -> s' = s /\ r = Ok a.
Proof. unfold lift. intros [= <- ->]. split; reflexivity. Qed.

Lemma getitem_Ok_inv (d : nat) (key : string) (s s' : store)
    (v : value Payload) :
  getitem d key s = (s', Ok v) ->
  s' = s /\ exists o, s !! d = Some o /\ o !! key = Some v.
Proof.
  unfold getitem. destruct (s !! d) as [o|]; [| discriminate].
  destruct (o !! key) as [v'|] eqn:Hk; [| discriminate].
  intros [= <- <-]. split; [reflexivity |]. exists o. split; [reflexivity | exact Hk].
Qed.

Lemma getitem_Ok (d : nat) (key : string) (s : store)
    (o : gmap string (value Payload)) (v : value Payload) :
  s !! d = Some o -> o !! key = Some v -> getitem d key s = (s, Ok v).
Proof. unfold getitem. intros -> ->. reflexivity. Qed.

Lemma setitem_Ok (d : nat) (key : string) (v : value Payload) (s : store)
    (o : gmap string (value Payload)) :
  s !! d = Some o -> setitem d key v s = (<[d := <[key := v]> o]> s, Ok tt).
Proof. unfold setitem. intros ->. reflexivity. Qed.

Lemma setitem_Ok_inv (d : nat) (key : string) (v : value Payload)
    (s s' : store) (u : unit) :
  setitem d key v s = (s', Ok u) ->
  exists o, s !! d = Some o /\ s' = <[d := <[key := v]> o]> s.
Proof.
  unfold setitem. destruct (s !! d) as [o|]; [| discriminate].
  intros [= <- _]. exists o. split; reflexivity.
Qed.

Lemma deepcopy_Ok (d : nat) (s : store) (o : gmap string (value Payload)) :
  s !! d = Some o -> deepcopy d s = (<[fresh (dom s) := o]> s, Ok (fresh (dom s))).
Proof. unfold deepcopy. intros ->. reflexivity. Qed.

Lemma deepcopy_Ok_inv (d d' : nat) (s s' : store) :
  deepcopy d s = (s', Ok d') ->
  exists o, s !! d = Some o /\ d' = fresh (dom s) /\ s' = <[d' := o]> s.
Proof.
  unfold deepcopy. destruct (s !! d) as [o|]; [| discriminate].
  intros [= <- <-]. exists o. repeat split.
Qed.

Lemma check_image_size_Ok_inv (d : nat) (image : Array3) (s s' : store)
    (u : unit) :
  check_image_size d image s = (s', Ok u) ->
  s' = s /\ exists o, s !! d = Some o /\
    agrees (o !! "width") (snd (shape2 image)) = true /\
    agrees (o !! "height") (fst (shape2 image)) = true.
Proof.
  unfold check_image_size. destruct (s !! d) as [o|]; [| discriminate].
  destruct (agrees (o !! "width") _ && agrees (o !! "height") _) eqn:Hag;
    [| discriminate].
  apply andb_true_iff in Hag as [Hw Hh].
  intros [= <-]. split; [reflexivity |]. exists o. repeat split; assumption.
Qed.

Lemma check_image_size_Ok (d : nat) (image : Array3) (s : store)
    (o : gmap string (value Payload)) :
  s !! d = Some o ->
  agrees (o !! "width") (snd (shape2 image)) = true ->
  agrees (o !! "height") (fst (shape2 image)) = true ->
  check_image_size d image s = (s, Ok tt).
Proof. unfold check_image_size. intros -> -> ->. reflexivity. Qed.

Lemma check_image_size_Raise (d : nat) (image : Array3) (s : store)
    (o : gmap string (value Payload)) :
  s !! d = Some o ->
  agrees (o !! "width") (snd (shape2 image))
    && agrees (o !! "height") (fst (shape2 image)) = false ->
  check_image_size d image s = (s, Raise SizeMismatchError).
Proof. unfold check_image_size. intros -> ->. reflexivity. Qed.

End Steps.

(** ** [zip] and the loop *)

Lemma zip_length {A B} (a : list A) (b : list B) :
  length (zip a b) = Nat.min (length a) (length b).
Proof.
  revert b. induction a as [|x a IH]; intros [|y b]; simpl; try reflexivity.
  rewrite IH. reflexivity.
Qed.




Lemma rmapM_length {A B} (f : A -> result B) (l : list A) (r : list B) :
  rmapM f l = Ok r -> length r = length l.
Proof.
  revert r. induction l as [|x l IH]; simpl; intros r.
  - intros [= <-]. reflexivity.
  - destruct (f x) as [y|e]; simpl; [| discriminate].
    destruct (rmapM f l) as [ys|e]; simpl; [| discriminate].
    intros [= <-]. simpl. rewrite (IH ys eq_refl). reflexivity.
Qed.

Section Loop.

Context {Payload : Type}.
Variable frPyObjects_decode : Payload -> Z -> Z -> result decoded.

Local Abbreviation store := (gmap nat (gmap string (value Payload))).

Lemma loop_store (d : nat) (transforms : Transform)
    (pairs : list (Payload * Z)) :
  forall masks classes (s : store),
    fst (loop frPyObjects_decode d transforms pairs masks classes s) = s.
Proof.
  induction pairs as [|[inst label] pairs IH]; intros masks classes s; simpl.
  - reflexivity.
  - unfold bind at 1, getitem at 1.
    destruct (s !! d) as [o|] eqn:Hs; [| reflexivity].
    destruct (o !! "height") as [vh|]; [| reflexivity].
    unfold bind at 1, lift at 1.
    destruct (as_int vh) as [height|]; [| reflexivity].
    unfold bind at 1, getitem at 1. rewrite Hs.
    destruct (o !! "width") as [vw|]; [| reflexivity].
    unfold bind at 1, lift at 1.
    destruct (as_int vw) as [width|]; [| reflexivity].
    unfold bind at 1, lift at 1.
    destruct (instance_mask _ _ _ _ _) as [m|]; [| reflexivity].
    apply IH.
Qed.

Lemma loop_Ok_inv (d : nat) (transforms : Transform)
    (o : gmap string (value Payload)) (pairs : list (Payload * Z)) :
  forall masks classes (s s' : store) ms cs,
    s !! d = Some o ->
    loop frPyObjects_decode d transforms pairs masks classes s
      = (s', Ok (ms, cs)) ->
    s' = s /\
    exists new, ms = masks ++ new /\ cs = classes ++ map snd pairs /\
                Forall2 (row_of frPyObjects_decode o transforms) pairs new.
Proof.
  induction pairs as [|[inst label] pairs IH];
    intros masks classes s s' ms cs Hs; simpl.
  - unfold ret. intros [= <- <- <-]. split; [reflexivity |].
    exists []. rewrite !app_nil_r. repeat split. constructor.
  - unfold bind at 1, getitem at 1. rewrite Hs.
    destruct (o !! "height") as [vh|] eqn:Hh; [| discriminate].
    unfold bind at 1, lift at 1.
    destruct vh as [| height | | | |]; simpl; try discriminate.
    unfold bind at 1, getitem at 1. rewrite Hs.
    destruct (o !! "width") as [vw|] eqn:Hw; [| discriminate].
    unfold bind at 1, lift at 1.
    destruct vw as [| width | | | |]; simpl; try discriminate.
    unfold bind at 1, lift at 1.
    destruct (instance_mask _ _ _ _ _) as [m|] eqn:Hm; [| discriminate].
    intros Hloop. destruct (IH _ _ _ _ _ _ Hs Hloop) as [-> [new [-> [-> Hrows]]]].
    split; [reflexivity |]. exists (m :: new).
    rewrite <- !app_assoc. simpl. repeat split.
    constructor; [| exact Hrows].
    exists height, width. repeat split; assumption.
Qed.


End Loop.

(** ** The whole call *)

Section Call.

Context {Payload : Type}.
Variable image_format : string.
Variable read_image : string -> string -> result Array3.
Variable augmentations : Array3 -> Array3 * Transform.
Variable frPyObjects_decode : Payload -> Z -> Z -> result decoded.

Local Abbreviation store := (gmap nat (gmap string (value Payload))).
Local Abbreviation mapper :=
  (__call__ Payload image_format read_image augmentations frPyObjects_decode).

Local Notation "'let*' x ':=' c 'in' k" := (bind c (fun x => k))
  (at level 10, x pattern, c at level 100, k at level 200).

Lemma row_of_insert_image (d : gmap string (value Payload))
    (v : value Payload) (transforms : Transform) (p : Payload * Z)
    (m : Array2) :
  row_of frPyObjects_decode (<["image" := v]> d) transforms p m ->
  row_of frPyObjects_decode d transforms p m.
Proof.
  intros (height & width & Hh & Hw & Hm).
  rewrite lookup_insert_ne in Hh by discriminate.
  rewrite lookup_insert_ne in Hw by discriminate.
  exists height, width. repeat split; assumption.
Qed.

(** Everything a successful call tells about its input. *)
Lemma call_Ok_inv (s s' : store) (l l' : nat) :
  mapper l s = (s', Ok l') ->
  exists d file_name image image' transforms anns labs new insts,
    s !! l = Some d /\ l' = fresh (dom s) /\
    d !! "file_name" = Some (VStr file_name) /\
    read_image file_name image_format = Ok image /\
    agrees (d !! "width") (snd (shape2 image)) = true /\
    agrees (d !! "height") (fst (shape2 image)) = true /\
    augmentations image = (image', transforms) /\
    d !! "instance" = Some (VAnnos anns) /\ anns <> [] /\
    d !! "labels" = Some (VInts labs) /\
    Forall2 (row_of frPyObjects_decode d transforms) (zip anns labs) new /\
    make_instances (shape2 image') new (map snd (zip anns labs)) = Ok insts /\
    s' = <[l' := output_of d image' insts]> s.
Proof.
  intros H. unfold __call__ in H.
  apply bind_Ok_inv in H as (l1 & s1 & Hcopy & H).
  apply deepcopy_Ok_inv in Hcopy as (d & Hd & -> & ->).
  set (c := fresh (dom s)) in *.
  apply bind_Ok_inv in H as (vf & s2 & Hget & H).
  apply getitem_Ok_inv in Hget as (-> & o & Ho & Hf).
  rewrite lookup_insert_eq in Ho. injection Ho as <-.
  apply bind_Ok_inv in H as (f & s3 & Hl & H).
  apply lift_Ok_inv in Hl as (-> & Hstr).
  destruct vf as [f' | | | | |]; try discriminate. injection Hstr as ->.
  apply bind_Ok_inv in H as (image & s4 & Hl & H).
  apply lift_Ok_inv in Hl as (-> & Himg).
  apply bind_Ok_inv in H as (u & s5 & Hchk & H).
  apply check_image_size_Ok_inv in Hchk as (-> & o & Ho & Hw & Hh).
  rewrite lookup_insert_eq in Ho. injection Ho as <-.
  destruct (augmentations image) as [image' transforms] eqn:Haug.
  apply bind_Ok_inv in H as (u' & s6 & Hset & H).
  apply setitem_Ok_inv in Hset as (o & Ho & ->).
  rewrite lookup_insert_eq in Ho. injection Ho as <-.
  rewrite insert_insert_eq in H.
  set (d2 := <["image" := VTensor (transpose_2_0_1 image')]> d) in *.
  apply bind_Ok_inv in H as (vi & s7 & Hget & H).
  apply getitem_Ok_inv in Hget as (-> & o & Ho & Hinst).
  rewrite lookup_insert_eq in Ho. injection Ho as <-.
  apply bind_Ok_inv in H as (anns & s8 & Hl & H).
  apply lift_Ok_inv in Hl as (-> & Hanns).
  destruct vi as [| | anns' | | |]; try discriminate. injection Hanns as ->.
  apply bind_Ok_inv in H as (u'' & s9 & Hass & H).
  apply lift_Ok_inv in Hass as (-> & Hass).
  apply bind_Ok_inv in H as (vl & s10 & Hget & H).
  apply getitem_Ok_inv in Hget as (-> & o & Ho & Hlabs).
  rewrite lookup_insert_eq in Ho. injection Ho as <-.
  apply bind_Ok_inv in H as (labs & s11 & Hl & H).
  apply lift_Ok_inv in Hl as (-> & Hl).
  destruct vl as [| | | labs' | |]; try discriminate. injection Hl as ->.
  apply bind_Ok_inv in H as ([masks classes] & s12 & Hloop & H).
  apply (loop_Ok_inv frPyObjects_decode c transforms d2) in Hloop
    as (-> & new & -> & -> & Hrows); [| apply lookup_insert_eq].
  apply bind_Ok_inv in H as (insts & s13 & Hl & H).
  apply lift_Ok_inv in Hl as (-> & Hmk).
  apply bind_Ok_inv in H as (u3 & s14 & Hset & H).
  apply setitem_Ok_inv in Hset as (o & Ho & ->).
  rewrite lookup_insert_eq in Ho. injection Ho as <-.
  rewrite insert_insert_eq in H.
  unfold ret in H. injection H as <- <-.
  unfold d2 in Hinst, Hlabs.
  rewrite lookup_insert_ne in Hinst by discriminate.
  rewrite lookup_insert_ne in Hlabs by discriminate.
  exists d, f, image, image', transforms, anns, labs, new, insts.
  repeat split; try assumption.
  - intros ->. discriminate Hass.
  - eapply Forall2_impl; [exact Hrows |].
    intros p m. apply row_of_insert_image.
Qed.

(** The run up to the size check. *)
Lemma call_size_mismatch (s : store) (l : nat)
    (d : gmap string (value Payload)) (file_name : string) (image : Array3) :
  s !! l = Some d ->
  d !! "file_name" = Some (VStr file_name) ->
  read_image file_name image_format = Ok image ->
  agrees (d !! "width") (snd (shape2 image))
    && agrees (d !! "height") (fst (shape2 image)) = false ->
  mapper l s = (<[fresh (dom s) := d]> s, Raise SizeMismatchError).
Proof.
  intros Hd Hf Himg Hag. unfold __call__.
  rewrite (bind_Ok _ _ _ _ _ (deepcopy_Ok l s d Hd)).
  set (c := fresh (dom s)). set (s1 := <[c := d]> s).
  assert (Hc : s1 !! c = Some d) by apply lookup_insert_eq.
  rewrite (bind_Ok _ _ _ _ _ (getitem_Ok c "file_name" s1 d _ Hc Hf)).
  rewrite (bind_Ok _ _ s1 s1 file_name) by reflexivity.
  rewrite (bind_Ok _ _ s1 s1 image) by (unfold lift; rewrite Himg; reflexivity).
  apply bind_Raise. apply (check_image_size_Raise c image s1 d Hc Hag).
Qed.

(** The run up to the assertion of line 178. *)
Lemma call_prelude (s : store) (l : nat) (d : gmap string (value Payload))
    (file_name : string) (image image' : Array3) (transforms : Transform)
    (anns : list Payload) :
  s !! l = Some d ->
  d !! "file_name" = Some (VStr file_name) ->
  read_image file_name image_format = Ok image ->
  agrees (d !! "width") (snd (shape2 image)) = true ->
  agrees (d !! "height") (fst (shape2 image)) = true ->
  augmentations image = (image', transforms) ->
  d !! "instance" = Some (VAnnos anns) ->
  let c := fresh (dom s) in
  let d2 := <["image" := VTensor (transpose_2_0_1 image')]> d in
  let s2 := <[c := d2]> s in
  mapper l s =
  (let* _ := assert (Nat.ltb 0 (length anns)) in
   let* labels := getitem c "labels" in
   let* labels := lift (as_ints labels) in
   let* (masks, classes) :=
     loop frPyObjects_decode c transforms (zip anns labels) [] [] in
   let* instances := lift (make_instances (shape2 image') masks classes) in
   let* _ := setitem c "instances" (VInstances instances) in
   ret c) s2.
Proof.
  intros Hd Hf Himg Hw Hh Haug Hinst c d2 s2. unfold __call__.
  rewrite (bind_Ok _ _ _ _ _ (deepcopy_Ok l s d Hd)).
  fold c. set (s1 := <[c := d]> s).
  assert (Hc : s1 !! c = Some d) by apply lookup_insert_eq.
  rewrite (bind_Ok _ _ _ _ _ (getitem_Ok c "file_name" s1 d _ Hc Hf)).
  rewrite (bind_Ok _ _ s1 s1 file_name) by reflexivity.
  rewrite (bind_Ok _ _ s1 s1 image) by (unfold lift; rewrite Himg; reflexivity).
  rewrite (bind_Ok _ _ _ _ _ (check_image_size_Ok c image s1 d Hc Hw Hh)).
  rewrite Haug.
  rewrite (bind_Ok _ _ _ _ _ (setitem_Ok c "image" _ s1 d Hc)).
  unfold s1. rewrite insert_insert_eq. fold d2. fold s2.
  assert (Hc2 : s2 !! c = Some d2) by apply lookup_insert_eq.
  assert (Hinst2 : d2 !! "instance" = Some (VAnnos anns)).
  { unfold d2. rewrite lookup_insert_ne by discriminate. exact Hinst. }
  rewrite (bind_Ok _ _ _ _ _ (getitem_Ok c "instance" s2 d2 _ Hc2 Hinst2)).
  rewrite (bind_Ok _ _ s2 s2 anns) by reflexivity.
  reflexivity.
Qed.

Lemma call_assertion (s : store) (l : nat) (d : gmap string (value Payload))
    (file_name : string) (image : Array3) :
  s !! l = Some d ->
  d !! "file_name" = Some (VStr file_name) ->
  read_image file_name image_format = Ok image ->
  agrees (d !! "width") (snd (shape2 image)) = true ->
  agrees (d !! "height") (fst (shape2 image)) = true ->
  d !! "instance" = Some (VAnnos []) ->
  snd (mapper l s) = Raise AssertionError.
Proof.
  intros Hd Hf Himg Hw Hh Hinst.
  destruct (augmentations image) as [image' transforms] eqn:Haug.
  rewrite (call_prelude s l d file_name image image' transforms []
             Hd Hf Himg Hw Hh Haug Hinst).
  reflexivity.
Qed.

(** The run through the loop and the final stage. *)
Lemma call_Ok (s : store) (l : nat) (d : gmap string (value Payload))
    (file_name : string) (image image' : Array3) (transforms : Transform)
    (anns : list Payload) (labs : list Z) (new : list Array2)
    (insts : Instances) :
  s !! l = Some d ->
  d !! "file_name" = Some (VStr file_name) ->
  read_image file_name image_format = Ok image ->
  agrees (d !! "width") (snd (shape2 image)) = true ->
  agrees (d !! "height") (fst (shape2 image)) = true ->
  augmentations image = (image', transforms) ->
  d !! "instance" = Some (VAnnos anns) -> anns <> [] ->
  d !! "labels" = Some (VInts labs) ->
  (let s2 := <[fresh (dom s)
                := <["image" := VTensor (transpose_2_0_1 image')]> d]> s in
   loop frPyObjects_decode (fresh (dom s)) transforms (zip anns labs) [] [] s2
   = (s2, Ok (new, map snd (zip anns labs)))) ->
  make_instances (shape2 image') new (map snd (zip anns labs)) = Ok insts ->
  mapper l s = (<[fresh (dom s) := output_of d image' insts]> s,
                Ok (fresh (dom s))).
Proof.
  intros Hd Hf Himg Hw Hh Haug Hinst Hne Hlabs Hloop Hmk.
  rewrite (call_prelude s l d file_name image image' transforms anns
             Hd Hf Himg Hw Hh Haug Hinst).
  set (c := fresh (dom s)) in *.
  set (d2 := <["image" := VTensor (transpose_2_0_1 image')]> d).
  set (s2 := <[c := d2]> s).
  assert (Hc2 : s2 !! c = Some d2) by apply lookup_insert_eq.
  assert (Hlabs2 : d2 !! "labels" = Some (VInts labs)).
  { unfold d2. rewrite lookup_insert_ne by discriminate. exact Hlabs. }
  rewrite (bind_Ok _ _ s2 s2 tt)
    by (destruct anns; [contradiction | reflexivity]).
  rewrite (bind_Ok _ _ _ _ _ (getitem_Ok c "labels" s2 d2 _ Hc2 Hlabs2)).
  rewrite (bind_Ok _ _ s2 s2 labs) by reflexivity.
  rewrite (bind_Ok _ _ _ _ _ Hloop).
  rewrite (bind_Ok _ _ s2 s2 insts) by (unfold lift; rewrite Hmk; reflexivity).
  rewrite (bind_Ok _ _ _ _ _ (setitem_Ok c "instances" _ s2 d2 Hc2)).
  unfold ret, s2. rewrite insert_insert_eq. reflexivity.
Qed.

End Call.

(** ** What a run may write *)

Section Frame.

Context {Payload : Type}.

Local Abbreviation store := (gmap nat (gmap string (value Payload))).

Lemma touches_only_ret {A} (c : nat) (a : A) :
  touches_only (Payload := Payload) c (ret a).
Proof. intros s l _. reflexivity. Qed.

Lemma touches_only_lift {A} (c : nat) (r : result A) :
  touches_only (Payload := Payload) c (lift r).
Proof. intros s l _. reflexivity. Qed.

Lemma touches_only_getitem (c d : nat) (key : string) :
  touches_only (Payload := Payload) c (getitem d key).
Proof.
  intros s l _. unfold getitem.
  destruct (s !! d) as [o|]; [| reflexivity].
  destruct (o !! key); reflexivity.
Qed.

Lemma touches_only_check_image_size (c d : nat) (image : Array3) :
  touches_only (Payload := Payload) c (check_image_size d image).
Proof.
  intros s l _. unfold check_image_size.
  destruct (s !! d) as [o|]; [| reflexivity].
  destruct (_ && _); reflexivity.
Qed.

Lemma touches_only_setitem (c : nat) (key : string) (v : value Payload) :
  touches_only c (setitem c key v).
Proof.
  intros s l Hl. unfold setitem.
  destruct (s !! c) as [o|]; [| reflexivity].
  simpl. apply lookup_insert_ne. congruence.
Qed.

Lemma touches_only_bind {A B} (c : nat) (m : M Payload A)
    (k : A -> M Payload B) :
  touches_only c m -> (forall a, touches_only c (k a)) ->
  touches_only c (bind m k).
Proof.
  intros Hm Hk s l Hl. unfold bind.
  specialize (Hm s l Hl).
  destruct (m s) as [s1 [a|e]]; simpl in *.
  - rewrite (Hk a s1 l Hl). exact Hm.
  - exact Hm.
Qed.

Lemma touches_only_loop (codec : Payload -> Z -> Z -> result decoded)
    (c d : nat) (transforms : Transform) (pairs : list (Payload * Z))
    (masks : list Array2) (classes : list Z) :
  touches_only c (loop codec d transforms pairs masks classes).
Proof. intros s l _. rewrite loop_store. reflexivity. Qed.

End Frame.

Lemma agrees_false {Payload : Type} (v : value Payload) (n : nat) :
  v <> VInt (Z.of_nat n) -> agrees (Some v) n = false.
Proof.
  intros Hv. destruct v as [| z | | | |]; try reflexivity.
  simpl. apply Z.eqb_neq. intros ->. apply Hv. reflexivity.
Qed.

Lemma Forall2_map_same {A B} (f : A -> B) (Q : A -> B -> Prop) (l : list A) :
  (forall a, Q a (f a)) -> Forall2 Q l (map f l).
Proof. intros HQ. induction l; simpl; constructor; auto. Qed.

(** ** The claims about [__call__] *)

Section Claims.

Context {Payload : Type}.
Variable image_format : string.
Variable read_image : string -> string -> result Array3.
Variable augmentations : Array3 -> Array3 * Transform.
Variable frPyObjects_decode : Payload -> Z -> Z -> result decoded.

Local Abbreviation store := (gmap nat (gmap string (value Payload))).
Local Abbreviation mapper :=
  (__call__ Payload image_format read_image augmentations frPyObjects_decode).

(** C1 (amended): for a record whose 'instance' sequence is empty the call
    returns no output record; once the image has loaded and its size has
    passed the check, the exception is the failed assertion of line 178. An
    exception of an earlier line (the image cannot be read, the size check
    fails) comes first. *)
Theorem empty_instance_no_output (s : store) (l : nat)
    (d : gmap string (value Payload)) :
  s !! l = Some d ->
  d !! "instance" = Some (VAnnos []) ->
  (forall s' l', mapper l s <> (s', Ok l')) /\
  (forall file_name image,
     d !! "file_name" = Some (VStr file_name) ->
     read_image file_name image_format = Ok image ->
     agrees (d !! "width") (snd (shape2 image)) = true ->
     agrees (d !! "height") (fst (shape2 image)) = true ->
     snd (mapper l s) = Raise AssertionError).
Proof.
  intros Hd Hinst. split.
  - intros s' l' Hrun.
    apply call_Ok_inv in Hrun
      as (d' & f & image & image' & T & anns & labs & new & insts & Hd' & _
          & _ & _ & _ & _ & _ & Hinst' & Hne & _).
    rewrite Hd in Hd'. injection Hd' as <-.
    rewrite Hinst in Hinst'. injection Hinst' as <-.
    apply Hne. reflexivity.
  - intros f image Hf Himg Hw Hh.
    exact (call_assertion _ _ _ _ s l d f image Hd Hf Himg Hw Hh Hinst).
Qed.

(** C9: a record whose declared height or width differs from that of the
    image that was read fails with SizeMismatch. Nothing is assumed of its
    'instance' and 'labels' and of the mask codec: the exception comes
    before any of them is looked at, and there is no output record. *)
Theorem size_mismatch_raises (s : store) (l : nat)
    (d : gmap string (value Payload)) (file_name : string) (image : Array3) :
  s !! l = Some d ->
  d !! "file_name" = Some (VStr file_name) ->
  read_image file_name image_format = Ok image ->
  (exists v, d !! "height" = Some v /\ v <> VInt (Z.of_nat (fst (shape2 image))))
  \/ (exists v, d !! "width" = Some v /\ v <> VInt (Z.of_nat (snd (shape2 image)))) ->
  snd (mapper l s) = Raise SizeMismatchError /\
  forall s' l', mapper l s <> (s', Ok l').
Proof.
  intros Hd Hf Himg Hdis.
  assert (Hag : agrees (d !! "width") (snd (shape2 image))
                && agrees (d !! "height") (fst (shape2 image)) = false).
  { apply andb_false_iff. destruct Hdis as [[v [Hv Hne]] | [v [Hv Hne]]].
    - right. rewrite Hv. apply agrees_false. exact Hne.
    - left. rewrite Hv. apply agrees_false. exact Hne. }
  pose proof (call_size_mismatch image_format read_image augmentations
                frPyObjects_decode s l d file_name image Hd Hf Himg Hag) as Hrun.
  split.
  - rewrite Hrun. reflexivity.
  - intros s' l' Hok. rewrite Hrun in Hok. discriminate.
Qed.

(** C8: the call leaves the caller's record as it found it. It works on a
    copy that [deepcopy] allocates at entry; every object of the store other
    than that copy has, after the call, the content it had before, whether
    the call returns or raises. *)
Theorem caller_record_untouched (s : store) (l : nat)
    (d : gmap string (value Payload)) :
  s !! l = Some d ->
  fst (mapper l s) !! l = Some d /\
  forall l0, l0 <> fresh (dom s) -> fst (mapper l s) !! l0 = s !! l0.
Proof.
  intros Hd.
  assert (Hfresh : l <> fresh (dom s)).
  { intros Heq. apply (is_fresh (dom s)). rewrite <- Heq.
    apply elem_of_dom. exists d. exact Hd. }
  assert (Hframe : forall l0, l0 <> fresh (dom s) ->
                              fst (mapper l s) !! l0 = s !! l0).
  { intros l0 Hl0. unfold __call__.
    rewrite (bind_Ok _ _ _ _ _ (deepcopy_Ok l s d Hd)).
    set (c := fresh (dom s)) in *.
    match goal with
    | |- fst (?m _) !! _ = _ =>
        assert (Hm : touches_only c m)
    end.
    { repeat first
        [ apply touches_only_bind; [| intros ? ]
        | apply touches_only_getitem
        | apply touches_only_lift
        | apply touches_only_check_image_size
        | apply touches_only_setitem
        | apply touches_only_loop
        | apply touches_only_ret
        | match goal with
          | |- touches_only _ (let '(_, _) := ?p in _) => destruct p
          | |- touches_only _ (match ?p with (_, _) => _ end) => destruct p
          end ]. }
    rewrite (Hm _ l0 Hl0). apply lookup_insert_ne. congruence. }
  split; [| exact Hframe].
  rewrite (Hframe l Hfresh). exact Hd.
Qed.

(** C3 (amended): the record that a successful call returns carries the
    derived 'image' tensor and 'instances' aggregate, and every other key
    of the input with the value it had; 'instance' and 'labels' are still
    there. Nothing is removed. *)
Theorem output_keeps_input_keys (s s' : store) (l l' : nat) :
  mapper l s = (s', Ok l') ->
  exists d out image insts anns labs,
    s !! l = Some d /\ s' !! l' = Some out /\
    out !! "image" = Some (VTensor image) /\
    out !! "instances" = Some (VInstances insts) /\
    (forall key, key <> "image" -> key <> "instances" ->
                 out !! key = d !! key) /\
    out !! "instance" = Some (VAnnos anns) /\
    out !! "labels" = Some (VInts labs).
Proof.
  intros Hrun.
  apply call_Ok_inv in Hrun
    as (d & f & image & image' & T & anns & labs & new & insts & Hd & _
        & _ & _ & _ & _ & _ & Hinst & _ & Hlabs & _ & _ & ->).
  exists d, (output_of d image' insts), (transpose_2_0_1 image'), insts,
         anns, labs.
  split; [exact Hd |].
  split; [apply lookup_insert_eq |].
  unfold output_of.
  split; [rewrite lookup_insert_ne by discriminate; apply lookup_insert_eq |].
  split; [apply lookup_insert_eq |].
  split.
  - intros key Hk1 Hk2. rewrite !lookup_insert_ne by congruence. reflexivity.
  - rewrite !lookup_insert_ne by discriminate. split; assumption.
Qed.

(** C5: in the record of a successful call the mask tensor has as many
    rows as the classes tensor has entries. *)
Theorem masks_classes_same_count (s s' : store) (l l' : nat) :
  mapper l s = (s', Ok l') ->
  exists out insts,
    s' !! l' = Some out /\ out !! "instances" = Some (VInstances insts) /\
    fst (fst (t3_shape (gt_masks insts))) = t1_shape (gt_classes insts) /\
    length (t3_data (gt_masks insts)) = length (t1_data (gt_classes insts)).
Proof.
  intros Hrun.
  apply call_Ok_inv in Hrun
    as (d & f & image & image' & T & anns & labs & new & insts & Hd & _
        & _ & _ & _ & _ & _ & _ & _ & _ & Hrows & Hmk & ->).
  exists (output_of d image' insts), insts.
  split; [apply lookup_insert_eq |].
  split; [apply lookup_insert_eq |].
  apply Forall2_length in Hrows.
  apply make_instances_Ok in Hmk as (h & w & ->). simpl.
  rewrite !length_map. split; congruence.
Qed.


(** C6: no processed pair is dropped. The record of a successful call has
    one mask row and one class entry per pair of [zip(instance, labels)], in
    order: the class is the label of the pair, the mask row is the
    transformed merged mask of its instance. A row that is all zero is kept
    as well, and its box is the box of zeros, of area zero. *)
Theorem all_zero_mask_kept (s s' : store) (l l' : nat) :
  mapper l s = (s', Ok l') ->
  exists d transforms anns labs out insts n h w,
    s !! l = Some d /\
    d !! "instance" = Some (VAnnos anns) /\ d !! "labels" = Some (VInts labs) /\
    s' !! l' = Some out /\ out !! "instances" = Some (VInstances insts) /\
    t3_shape (gt_masks insts) = (n, h, w) /\
    n = length (zip anns labs) /\
    t1_data (gt_classes insts) = map snd (zip anns labs) /\
    Forall2 (fun p m => exists raw,
               row_of frPyObjects_decode d transforms p raw /\ m = to_bool raw)
            (zip anns labs) (t3_data (gt_masks insts)) /\
    Forall2 (fun m b => all_zero h w m -> b = [0; 0; 0; 0] /\ box_area b = 0)
            (t3_data (gt_masks insts)) (t2_data (gt_boxes insts)).
Proof.
  intros Hrun.
  apply call_Ok_inv in Hrun
    as (d & f & image & image' & T & anns & labs & new & insts & Hd & _
        & _ & _ & _ & _ & _ & Hinst & _ & Hlabs & Hrows & Hmk & ->).
  apply make_instances_Ok in Hmk as (h & w & ->).
  exists d, T, anns, labs. eexists _, _, (length new), h, w.
  split; [exact Hd |]. split; [exact Hinst |]. split; [exact Hlabs |].
  split; [apply lookup_insert_eq |].
  split; [apply lookup_insert_eq |]. simpl.
  split; [reflexivity |].
  split; [symmetry; exact (Forall2_length _ _ _ Hrows) |].
  split; [reflexivity |].
  split.
  - clear -Hrows. induction Hrows as [|p m ps ms Hp _ IH]; simpl;
      constructor; [exists m; split; [exact Hp | reflexivity] | exact IH].
  - apply Forall2_map_same. intros m Hz.
    rewrite (mask_box_all_zero h w m Hz). split; reflexivity.
Qed.

(** C7: when the loop ends without a mask (on success it has one per pair,
    so: when [zip(instance, labels)] is empty) the call returns its record,
    whose instances have a mask tensor of shape (0, H, W), with H and W the
    height and width of the transformed image, and a box tensor of shape
    (0, 4). *)
Theorem empty_batch_shapes (s : store) (l : nat)
    (d : gmap string (value Payload)) (file_name : string)
    (image image' : Array3) (transforms : Transform)
    (anns : list Payload) (labs : list Z) :
  s !! l = Some d ->
  d !! "file_name" = Some (VStr file_name) ->
  read_image file_name image_format = Ok image ->
  agrees (d !! "width") (snd (shape2 image)) = true ->
  agrees (d !! "height") (fst (shape2 image)) = true ->
  augmentations image = (image', transforms) ->
  d !! "instance" = Some (VAnnos anns) -> anns <> [] ->
  d !! "labels" = Some (VInts labs) ->
  zip anns labs = [] ->
  exists s' l' out insts,
    mapper l s = (s', Ok l') /\
    s' !! l' = Some out /\ out !! "instances" = Some (VInstances insts) /\
    t3_shape (gt_masks insts)
      = (0%nat, fst (shape2 image'), snd (shape2 image')) /\
    t2_shape (gt_boxes insts) = (0%nat, 4%nat) /\
    t3_data (gt_masks insts) = [] /\ t2_data (gt_boxes insts) = [].
Proof.
  intros Hd Hf Himg Hw Hh Haug Hinst Hne Hlabs Hzip.
  pose proof (call_Ok image_format read_image augmentations frPyObjects_decode
                s l d file_name image image' transforms anns labs []) as Hrun.
  rewrite Hzip in Hrun.
  specialize (Hrun _ Hd Hf Himg Hw Hh Haug Hinst Hne Hlabs eq_refl
                   (make_instances_nil _)).
  eexists _, _, _, _. split; [exact Hrun |].
  split; [apply lookup_insert_eq |].
  split; [apply lookup_insert_eq |].
  simpl. repeat split.
Qed.


End Claims.

(** ** The claims on concrete records *)

(** C1, as stated, fails: a record without instances whose declared height
    is not that of the image raises the size mismatch, and one whose file
    cannot be read raises the error of the reader; neither reaches the
    assertion. *)
Lemma empty_instance_size_mismatch_first :
  Fixture.record 5 3 [] [] !! "instance" = Some (VAnnos []) /\
  snd (Fixture.mapper 0%nat Fixture.no_instance_wrong_height)
    = Raise SizeMismatchError /\
  snd (Fixture.mapper 0%nat Fixture.no_instance_wrong_height)
    <> Raise AssertionError /\
  snd (Fixture.mapper 0%nat Fixture.no_instance_unreadable) = Raise IOError.
Proof.
  split; [vm_compute; reflexivity |].
  assert (H : snd (Fixture.mapper 0%nat Fixture.no_instance_wrong_height)
              = Raise SizeMismatchError) by (vm_compute; reflexivity).
  split; [exact H |].
  split; [rewrite H; discriminate | vm_compute; reflexivity].
Qed.

Lemma empty_instance_no_output_witness :
  snd (Fixture.mapper 0%nat Fixture.no_instance) = Raise AssertionError.
Proof.
  apply (proj2 (empty_instance_no_output "BGR" Fixture.reader Fixture.identity
                  Fixture.codec Fixture.no_instance 0%nat
                  (Fixture.record 2 3 [] []) eq_refl eq_refl)
               "a.png" Fixture.picture);
    vm_compute; reflexivity.
Defined.

Lemma size_mismatch_raises_witness :
  snd (Fixture.mapper 0%nat Fixture.wrong_width) = Raise SizeMismatchError.
Proof.
  apply (size_mismatch_raises "BGR" Fixture.reader Fixture.identity
           Fixture.codec Fixture.wrong_width 0%nat
           (Fixture.record 2 4 [Dec3 Fixture.disjoint] [5])
           "a.png" Fixture.picture).
  - vm_compute; reflexivity.
  - vm_compute; reflexivity.
  - vm_compute; reflexivity.
  - right. exists (VInt 4). split; [vm_compute; reflexivity |].
    vm_compute. discriminate.
Defined.

Lemma caller_record_untouched_witness :
  fst (Fixture.mapper 0%nat Fixture.two_instances) !! 0%nat
  = Some (Fixture.record 2 3 [Dec3 Fixture.disjoint; Dec3 Fixture.occluded]
                         [5; 7]).
Proof.
  apply (caller_record_untouched "BGR" Fixture.reader Fixture.identity
           Fixture.codec Fixture.two_instances 0%nat).
  vm_compute; reflexivity.
Defined.

(** C3, as stated, fails: the returned record still has its 'instance' and
    its 'labels'. *)
Lemma output_still_has_instance_and_labels :
  exists s' l' out,
    Fixture.mapper 0%nat Fixture.two_instances = (s', Ok l') /\
    s' !! l' = Some out /\
    out !! "instance"
      = Some (VAnnos [Dec3 Fixture.disjoint; Dec3 Fixture.occluded]) /\
    out !! "labels" = Some (VInts [5; 7]) /\
    ~ (out !! "instance" = None /\ out !! "labels" = None).
Proof.
  exists (fst (Fixture.mapper 0%nat Fixture.two_instances)), 1%nat.
  eexists.
  split; [vm_compute; reflexivity |].
  split; [vm_compute; reflexivity |].
  split; [vm_compute; reflexivity |].
  split; [vm_compute; reflexivity |].
  vm_compute. intros [H _]. discriminate H.
Qed.

Lemma output_keeps_input_keys_witness :
  exists d out image insts anns labs,
    Fixture.two_instances !! 0%nat = Some d /\
    fst (Fixture.mapper 0%nat Fixture.two_instances) !! 1%nat = Some out /\
    out !! "image" = Some (VTensor image) /\
    out !! "instances" = Some (VInstances insts) /\
    (forall key, key <> "image" -> key <> "instances" ->
                 out !! key = d !! key) /\
    out !! "instance" = Some (VAnnos anns) /\
    out !! "labels" = Some (VInts labs).
Proof.
  apply (output_keeps_input_keys "BGR" Fixture.reader Fixture.identity
           Fixture.codec).
  vm_compute; reflexivity.
Defined.

Lemma masks_classes_same_count_witness :
  exists out insts,
    fst (Fixture.mapper 0%nat Fixture.two_instances) !! 1%nat = Some out /\
    out !! "instances" = Some (VInstances insts) /\
    fst (fst (t3_shape (gt_masks insts))) = t1_shape (gt_classes insts) /\
    length (t3_data (gt_masks insts)) = length (t1_data (gt_classes insts)).
Proof.
  apply (masks_classes_same_count "BGR" Fixture.reader Fixture.identity
           Fixture.codec Fixture.two_instances _ 0%nat 1%nat).
  vm_compute; reflexivity.
Defined.


Lemma all_zero_mask_kept_witness :
  exists d transforms anns labs out insts n h w,
    Fixture.two_instances !! 0%nat = Some d /\
    d !! "instance" = Some (VAnnos anns) /\ d !! "labels" = Some (VInts labs) /\
    fst (Fixture.mapper 0%nat Fixture.two_instances) !! 1%nat = Some out /\
    out !! "instances" = Some (VInstances insts) /\
    t3_shape (gt_masks insts) = (n, h, w) /\
    n = length (zip anns labs) /\
    t1_data (gt_classes insts) = map snd (zip anns labs) /\
    Forall2 (fun p m => exists raw,
               row_of Fixture.codec d transforms p raw /\ m = to_bool raw)
            (zip anns labs) (t3_data (gt_masks insts)) /\
    Forall2 (fun m b => all_zero h w m -> b = [0; 0; 0; 0] /\ box_area b = 0)
            (t3_data (gt_masks insts)) (t2_data (gt_boxes insts)).
Proof.
  apply (all_zero_mask_kept "BGR" Fixture.reader Fixture.identity
           Fixture.codec Fixture.two_instances _ 0%nat 1%nat).
  vm_compute; reflexivity.
Defined.

(** The record of the two instances, as computed: the occluded one has its
    row of zeros and its box of zeros. *)
Example two_instances_output :
  exists out,
    fst (Fixture.mapper 0%nat Fixture.two_instances) !! 1%nat = Some out /\
    out !! "instances" = Some (VInstances
      {| image_size := (2%nat, 3%nat);
         gt_classes := {| t1_shape := 2; t1_data := [5; 7] |};
         gt_masks := {| t3_shape := (2%nat, 2%nat, 3%nat);
                        t3_data := [[[1; 0; 0]; [1; 1; 0]];
                                    [[0; 0; 0]; [0; 0; 0]]] |};
         gt_boxes := {| t2_shape := (2%nat, 4%nat);
                        t2_data := [[0; 0; 2; 2]; [0; 0; 0; 0]] |} |}).
Proof.
  eexists. split; vm_compute; reflexivity.
Qed.

Lemma empty_batch_shapes_witness :
  exists s' l' out insts,
    Fixture.mapper 0%nat Fixture.no_label = (s', Ok l') /\
    s' !! l' = Some out /\ out !! "instances" = Some (VInstances insts) /\
    t3_shape (gt_masks insts) = (0%nat, 2%nat, 3%nat) /\
    t2_shape (gt_boxes insts) = (0%nat, 4%nat) /\
    t3_data (gt_masks insts) = [] /\ t2_data (gt_boxes insts) = [].
Proof.
  apply (empty_batch_shapes "BGR" Fixture.reader Fixture.identity
           Fixture.codec Fixture.no_label 0%nat
           (Fixture.record 2 3 [Dec3 Fixture.disjoint] [])
           "a.png" Fixture.picture Fixture.picture (fun a => a)
           [Dec3 Fixture.disjoint] []);
    try (vm_compute; reflexivity).
  discriminate.
Defined.


(** ** Further properties of the merge (lines 185-186) *)

Lemma parts_at_Forall (Q : list Z -> Prop) (a : Array3) (i j : nat) :
  Q [] -> Forall (Forall Q) a -> Q (parts_at a i j).
Proof.
  intros Hnil Ha. unfold parts_at.
  destruct (nth_in_or_default i a []) as [Hi | ->].
  - rewrite List.Forall_forall in Ha. specialize (Ha _ Hi).
    destruct (nth_in_or_default j (nth i a []) []) as [Hj | ->].
    + rewrite List.Forall_forall in Ha. exact (Ha _ Hj).
    + exact Hnil.
  - destruct j; exact Hnil.
Qed.

Lemma sumZ_binary_covering (p : list Z) :
  Forall (fun v => v = 0 \/ v = 1) p -> sumZ p = Z.of_nat (covering p).
Proof.
  unfold covering. induction 1 as [|v p Hv _ IH]; [reflexivity |].
  simpl. destruct Hv as [-> | ->]; simpl; rewrite IH; lia.
Qed.

Lemma covering_le_length (p : list Z) : (covering p <= length p)%nat.
Proof. unfold covering. apply List.filter_length_le. Qed.

Lemma covering_pos (p : list Z) :
  (0 < covering p)%nat <-> exists k, nth k p 0 <> 0.
Proof.
  unfold covering. induction p as [|v p IH]; simpl.
  - split; [lia | intros [[|k] Hk]; contradiction].
  - destruct (nonzero v) eqn:Hv; simpl.
    + split; [| lia]. intros _. exists 0%nat. apply nonzero_true. exact Hv.
    + rewrite IH. split.
      * intros [k Hk]. exists (S k). exact Hk.
      * intros [[|k] Hk]; [| exists k; exact Hk].
        exfalso. apply nonzero_true in Hk. simpl in Hv. congruence.
Qed.

(** X1: The merge of a 3-D array always succeeds, keeps the height and the
    width of every row, and leaves every pixel in the range of a byte. *)
Theorem merge_parts_byte_range (a : Array3) :
  exists m, merge_parts (Dec3 a) = Ok m /\
            length m = length a /\
            (forall i, length (nth i m []) = length (nth i a [])) /\
            (forall i j, 0 <= px m i j < 256).
Proof.
  eexists. split; [apply merge_parts_Dec3 |].
  split; [apply length_map |]. split.
  - intros i.
    change (@nil Z) with (map (fun p => sumZ p mod 256) []) at 1.
    rewrite (map_nth (map (fun p => sumZ p mod 256)) a [] i).
    apply length_map.
  - intros i j. rewrite (px_map_map (fun p => sumZ p mod 256)) by reflexivity.
    apply Z.mod_pos_bound. lia.
Qed.

(** X2: For binary parts, a merged pixel is the number of the parts that cover
    it, modulo 256. *)
Theorem merge_parts_counts_cover (a : Array3) :
  Forall (Forall (Forall (fun v => v = 0 \/ v = 1))) a ->
  exists m, merge_parts (Dec3 a) = Ok m /\
            forall i j, px m i j = Z.of_nat (covering (parts_at a i j)) mod 256.
Proof.
  intros Ha. eexists. split; [apply merge_parts_Dec3 |].
  intros i j. rewrite (px_map_map (fun p => sumZ p mod 256)) by reflexivity.
  rewrite sumZ_binary_covering; [reflexivity |].
  apply (parts_at_Forall (Forall (fun v => v = 0 \/ v = 1)));
    [constructor | exact Ha].
Qed.

Lemma merge_parts_counts_cover_witness :
  exists m, merge_parts (Dec3 Fixture.overlapping) = Ok m /\
            px m 1 0 = 2 /\ covering (parts_at Fixture.overlapping 1 0) = 2%nat.
Proof.
  destruct (merge_parts_counts_cover Fixture.overlapping) as [m [Hm Hpx]].
  - unfold Fixture.overlapping.
    repeat first [ apply List.Forall_nil | apply List.Forall_cons
                 | left; reflexivity | right; reflexivity ].
  - exists m. split; [exact Hm |]. split; [| reflexivity].
    rewrite Hpx. reflexivity.
Defined.

(** X3: For binary parts, fewer than 256 of them, the foreground of the merged
    mask is the union of the foregrounds of the parts, whether the parts
    overlap or not. *)
Theorem merge_parts_foreground_union (a : Array3) :
  Forall (Forall (fun p => Forall (fun v => v = 0 \/ v = 1) p
                           /\ (length p < 256)%nat)) a ->
  exists m, merge_parts (Dec3 a) = Ok m /\
            forall i j, px m i j <> 0 <-> exists k, nth k (parts_at a i j) 0 <> 0.
Proof.
  intros Ha. eexists. split; [apply merge_parts_Dec3 |].
  intros i j. rewrite (px_map_map (fun p => sumZ p mod 256)) by reflexivity.
  destruct (parts_at_Forall
              (fun p => Forall (fun v => v = 0 \/ v = 1) p
                        /\ (length p < 256)%nat) a i j) as [Hb Hlen];
    [split; [constructor | simpl; lia] | exact Ha |].
  rewrite (sumZ_binary_covering _ Hb).
  pose proof (covering_le_length (parts_at a i j)) as Hle.
  rewrite Z.mod_small by lia.
  rewrite <- covering_pos. lia.
Qed.

Lemma merge_parts_foreground_union_witness :
  exists m, merge_parts (Dec3 Fixture.overlapping) = Ok m /\
            px m 1 0 <> 0 /\ px m 0 1 = 0.
Proof.
  destruct (merge_parts_foreground_union Fixture.overlapping) as [m [Hm Hpx]].
  - unfold Fixture.overlapping.
    repeat first [ apply List.Forall_nil | apply List.Forall_cons
                 | left; reflexivity | right; reflexivity
                 | simpl; lia | split ].
  - exists m. split; [exact Hm |]. split.
    + apply Hpx. exists 0%nat. vm_compute. discriminate.
    + rewrite merge_parts_Dec3 in Hm. injection Hm as <-. reflexivity.
Defined.

(** ** The channel axis around the transform (line 187) *)

Lemma rmapM_map_Ok {A B} (f : B -> result A) (g : A -> B) (l : list A) :
  (forall x, f (g x) = Ok x) -> rmapM f (map g l) = Ok l.
Proof.
  intros Hfg. induction l as [|x l IH]; simpl; [reflexivity |].
  rewrite Hfg, IH. reflexivity.
Qed.

(** X4: Taking channel 0 of a mask that was given a channel axis gives the
    mask back. *)
Theorem channel0_add_channel (m : Array2) : channel0 (add_channel m) = Ok m.
Proof.
  unfold channel0, add_channel. apply rmapM_map_Ok. intros row.
  apply rmapM_map_Ok. reflexivity.
Qed.

Section Alignment.

Context {Payload : Type}.
Variable frPyObjects_decode : Payload -> Z -> Z -> result decoded.

(** X5: With a transform handle that returns the array it is given (no crop,
    flip or resize), the transformed mask of an instance is its merged
    mask, pixel for pixel. *)
Theorem identity_transform_keeps_mask (transforms : Transform) (inst : Payload)
    (height width : Z) (a : Array3) :
  (forall x, apply_segmentation transforms x = x) ->
  frPyObjects_decode inst height width = Ok (Dec3 a) ->
  instance_mask frPyObjects_decode transforms inst height width
    = merge_parts (Dec3 a).
Proof.
  intros Hid Hdec. unfold instance_mask. rewrite Hdec.
  change (rbind (merge_parts (Dec3 a))
            (fun m => channel0 (apply_segmentation transforms (add_channel m)))
          = merge_parts (Dec3 a)).
  destruct (merge_parts (Dec3 a)) as [m|e]; simpl; [| reflexivity].
  rewrite Hid. apply channel0_add_channel.
Qed.

End Alignment.

Lemma identity_transform_keeps_mask_witness :
  instance_mask Fixture.codec (fun x => x) (Dec3 Fixture.overlapping) 2 3
    = Ok [[1; 0; 0]; [2; 1; 0]].
Proof.
  rewrite (identity_transform_keeps_mask Fixture.codec (fun x => x)
             (Dec3 Fixture.overlapping) 2 3 Fixture.overlapping);
    reflexivity.
Defined.

(** ** The image tensor (line 176) *)

(** X6: The tensor under 'image' is channel-first: it has one plane per
    channel of the first pixel, each plane has the rows of the image, and
    the entry of channel [c], row [i], column [j] is the entry of row [i],
    column [j], channel [c] of the image. *)
Theorem transpose_2_0_1_index (image : Array3) :
  length (transpose_2_0_1 image) = length (hd [] (hd [] image)) /\
  forall c, (c < length (hd [] (hd [] image)))%nat ->
    length (nth c (transpose_2_0_1 image) []) = length image /\
    forall i j, at_chw (transpose_2_0_1 image) c i j = at_hwc image i j c.
Proof.
  unfold transpose_2_0_1. split; [rewrite length_map; apply length_seq |].
  intros c Hc.
  set (f := fun c => map (map (fun p : list Z => nth c p 0)) image).
  assert (Hnth : nth c (map f (seq 0 (length (hd [] (hd [] image))))) [] = f c).
  { rewrite (nth_indep _ [] (f 0%nat)) by (rewrite length_map, length_seq; lia).
    rewrite map_nth, seq_nth by lia. reflexivity. }
  unfold at_chw. rewrite Hnth. unfold f. split; [apply length_map |].
  intros i j. unfold at_hwc.
  apply (px_map_map (fun p : list Z => nth c p 0) image i j).
  destruct c; reflexivity.
Qed.

Lemma transpose_2_0_1_index_witness :
  length (nth 0 (transpose_2_0_1 Fixture.picture) []) = 2%nat /\
  at_chw (transpose_2_0_1 Fixture.picture) 0 1 2 = 60.
Proof.
  destruct (proj2 (transpose_2_0_1_index Fixture.picture) 0%nat) as [Hl Hix].
  - simpl. lia.
  - split; [exact Hl |]. rewrite Hix. reflexivity.
Defined.

(** ** Exceptions of the call *)

Section Errors.

Context {Payload : Type}.
Variable image_format : string.
Variable read_image : string -> string -> result Array3.
Variable augmentations : Array3 -> Array3 * Transform.
Variable frPyObjects_decode : Payload -> Z -> Z -> result decoded.

Local Abbreviation store := (gmap nat (gmap string (value Payload))).
Local Abbreviation mapper :=
  (__call__ Payload image_format read_image augmentations frPyObjects_decode).

Local Notation "'let*' x ':=' c 'in' k" := (bind c (fun x => k))
  (at level 10, x pattern, c at level 100, k at level 200).

Lemma getitem_KeyError (d : nat) (key : string) (s : store)
    (o : gmap string (value Payload)) :
  s !! d = Some o -> o !! key = None ->
  getitem d key s = (s, Raise (KeyError key)).
Proof. unfold getitem. intros -> ->. reflexivity. Qed.

(** The run up to the lookup of 'instance'. *)
Lemma call_to_instance (s : store) (l : nat)
    (d : gmap string (value Payload)) (file_name : string)
    (image image' : Array3) (transforms : Transform) :
  s !! l = Some d ->
  d !! "file_name" = Some (VStr file_name) ->
  read_image file_name image_format = Ok image ->
  agrees (d !! "width") (snd (shape2 image)) = true ->
  agrees (d !! "height") (fst (shape2 image)) = true ->
  augmentations image = (image', transforms) ->
  let c := fresh (dom s) in
  let d2 := <["image" := VTensor (transpose_2_0_1 image')]> d in
  let s2 := <[c := d2]> s in
  s2 !! c = Some d2 /\
  mapper l s =
  (let* instance := getitem c "instance" in
   let* instance := lift (as_annos instance) in
   let* _ := assert (Nat.ltb 0 (length instance)) in
   let* labels := getitem c "labels" in
   let* labels := lift (as_ints labels) in
   let* (masks, classes) :=
     loop frPyObjects_decode c transforms (zip instance labels) [] [] in
   let* instances := lift (make_instances (shape2 image') masks classes) in
   let* _ := setitem c "instances" (VInstances instances) in
   ret c) s2.
Proof.
  intros Hd Hf Himg Hw Hh Haug c d2 s2.
  split; [apply lookup_insert_eq |]. unfold __call__.
  rewrite (bind_Ok _ _ _ _ _ (deepcopy_Ok l s d Hd)).
  fold c. set (s1 := <[c := d]> s).
  assert (Hc : s1 !! c = Some d) by apply lookup_insert_eq.
  rewrite (bind_Ok _ _ _ _ _ (getitem_Ok c "file_name" s1 d _ Hc Hf)).
  rewrite (bind_Ok _ _ s1 s1 file_name) by reflexivity.
  rewrite (bind_Ok _ _ s1 s1 image) by (unfold lift; rewrite Himg; reflexivity).
  rewrite (bind_Ok _ _ _ _ _ (check_image_size_Ok c image s1 d Hc Hw Hh)).
  rewrite Haug.
  rewrite (bind_Ok _ _ _ _ _ (setitem_Ok c "image" _ s1 d Hc)).
  unfold s1. rewrite insert_insert_eq. reflexivity.
Qed.

(** The run up to the loop. *)
Lemma call_to_loop (s : store) (l : nat)
    (d : gmap string (value Payload)) (file_name : string)
    (image image' : Array3) (transforms : Transform)
    (anns : list Payload) (labs : list Z) :
  s !! l = Some d ->
  d !! "file_name" = Some (VStr file_name) ->
  read_image file_name image_format = Ok image ->
  agrees (d !! "width") (snd (shape2 image)) = true ->
  agrees (d !! "height") (fst (shape2 image)) = true ->
  augmentations image = (image', transforms) ->
  d !! "instance" = Some (VAnnos anns) -> anns <> [] ->
  d !! "labels" = Some (VInts labs) ->
  let c := fresh (dom s) in
  let d2 := <["image" := VTensor (transpose_2_0_1 image')]> d in
  let s2 := <[c := d2]> s in
  s2 !! c = Some d2 /\
  mapper l s =
  (let* (masks, classes) :=
     loop frPyObjects_decode c transforms (zip anns labs) [] [] in
   let* instances := lift (make_instances (shape2 image') masks classes) in
   let* _ := setitem c "instances" (VInstances instances) in
   ret c) s2.
Proof.
  intros Hd Hf Himg Hw Hh Haug Hinst Hne Hlabs c d2 s2.
  destruct (call_to_instance s l d file_name image image' transforms
              Hd Hf Himg Hw Hh Haug) as [Hc2 Hrun].
  fold c d2 s2 in Hc2, Hrun. split; [exact Hc2 |]. rewrite Hrun.
  assert (Hinst2 : d2 !! "instance" = Some (VAnnos anns)).
  { unfold d2. rewrite lookup_insert_ne by discriminate. exact Hinst. }
  assert (Hlabs2 : d2 !! "labels" = Some (VInts labs)).
  { unfold d2. rewrite lookup_insert_ne by discriminate. exact Hlabs. }
  rewrite (bind_Ok _ _ _ _ _ (getitem_Ok c "instance" s2 d2 _ Hc2 Hinst2)).
  rewrite (bind_Ok _ _ s2 s2 anns) by reflexivity.
  rewrite (bind_Ok _ _ s2 s2 tt)
    by (destruct anns; [contradiction | reflexivity]).
  rewrite (bind_Ok _ _ _ _ _ (getitem_Ok c "labels" s2 d2 _ Hc2 Hlabs2)).
  rewrite (bind_Ok _ _ s2 s2 labs) by reflexivity.
  reflexivity.
Qed.

(** The loop stops at the first instance whose mask raises. *)
Lemma loop_zip_Raise (c : nat) (transforms : Transform)
    (o : gmap string (value Payload)) (height width : Z) (s : store)
    (inst : Payload) (post : list Payload) (e : exn) :
  s !! c = Some o ->
  o !! "height" = Some (VInt height) -> o !! "width" = Some (VInt width) ->
  instance_mask frPyObjects_decode transforms inst height width = Raise e ->
  forall (pre : list Payload) (labs : list Z) masks classes new,
    (length pre < length labs)%nat ->
    rmapM (fun i => instance_mask frPyObjects_decode transforms i height width)
          pre = Ok new ->
    loop frPyObjects_decode c transforms (zip (pre ++ inst :: post) labs)
         masks classes s = (s, Raise e).
Proof.
  intros Hs Hh Hw He pre.
  induction pre as [|p pre IH]; intros labs masks classes new Hlen Hpre.
  - destruct labs as [|label labs]; [simpl in Hlen; lia |]. simpl.
    unfold bind at 1, getitem at 1. rewrite Hs, Hh.
    unfold bind at 1, lift at 1. simpl.
    unfold bind at 1, getitem at 1. rewrite Hs, Hw.
    unfold bind at 1, lift at 1. simpl.
    unfold bind at 1, lift at 1. rewrite He. reflexivity.
  - destruct labs as [|label labs]; [simpl in Hlen; lia |]. simpl in *.
    destruct (instance_mask _ _ p _ _) as [m|] eqn:Hm; simpl in Hpre;
      [| discriminate].
    destruct (rmapM _ pre) as [ms|] eqn:Hms; simpl in Hpre; [| discriminate].
    unfold bind at 1, getitem at 1. rewrite Hs, Hh.
    unfold bind at 1, lift at 1. simpl.
    unfold bind at 1, getitem at 1. rewrite Hs, Hw.
    unfold bind at 1, lift at 1. simpl.
    unfold bind at 1, lift at 1. rewrite Hm.
    apply (IH labs _ _ ms); [lia | reflexivity].
Qed.

(** X7: A record without 'file_name' raises the KeyError of that key. *)
Theorem missing_file_name_raises (s : store) (l : nat)
    (d : gmap string (value Payload)) :
  s !! l = Some d -> d !! "file_name" = None ->
  snd (mapper l s) = Raise (KeyError "file_name").
Proof.
  intros Hd Hf. unfold __call__.
  rewrite (bind_Ok _ _ _ _ _ (deepcopy_Ok l s d Hd)).
  erewrite bind_Raise; [reflexivity |].
  apply (getitem_KeyError _ _ _ d); [apply lookup_insert_eq | exact Hf].
Qed.

(** X8: What the image reader raises, the call raises. *)
Theorem read_image_error_propagates (s : store) (l : nat)
    (d : gmap string (value Payload)) (file_name : string) (e : exn) :
  s !! l = Some d ->
  d !! "file_name" = Some (VStr file_name) ->
  read_image file_name image_format = Raise e ->
  snd (mapper l s) = Raise e.
Proof.
  intros Hd Hf Himg. unfold __call__.
  rewrite (bind_Ok _ _ _ _ _ (deepcopy_Ok l s d Hd)).
  set (s1 := <[fresh (dom s) := d]> s).
  assert (Hc : s1 !! fresh (dom s) = Some d) by apply lookup_insert_eq.
  rewrite (bind_Ok _ _ _ _ _ (getitem_Ok _ "file_name" s1 d _ Hc Hf)).
  rewrite (bind_Ok _ _ s1 s1 file_name) by reflexivity.
  erewrite bind_Raise; [reflexivity |].
  unfold lift. rewrite Himg. reflexivity.
Qed.

(** X9: A record without 'instance', whose image loads and passes the size
    check, raises the KeyError of that key. *)
Theorem missing_instance_raises (s : store) (l : nat)
    (d : gmap string (value Payload)) (file_name : string) (image : Array3) :
  s !! l = Some d ->
  d !! "file_name" = Some (VStr file_name) ->
  read_image file_name image_format = Ok image ->
  agrees (d !! "width") (snd (shape2 image)) = true ->
  agrees (d !! "height") (fst (shape2 image)) = true ->
  d !! "instance" = None ->
  snd (mapper l s) = Raise (KeyError "instance").
Proof.
  intros Hd Hf Himg Hw Hh Hinst.
  destruct (augmentations image) as [image' transforms] eqn:Haug.
  destruct (call_to_instance s l d file_name image image' transforms
              Hd Hf Himg Hw Hh Haug) as [Hc2 Hrun].
  rewrite Hrun. erewrite bind_Raise; [reflexivity |].
  eapply getitem_KeyError; [exact Hc2 |].
  rewrite lookup_insert_ne by discriminate. exact Hinst.
Qed.

(** X10: A record with instances and without 'labels' raises the KeyError of
    that key. *)
Theorem missing_labels_raises (s : store) (l : nat)
    (d : gmap string (value Payload)) (file_name : string) (image : Array3)
    (anns : list Payload) :
  s !! l = Some d ->
  d !! "file_name" = Some (VStr file_name) ->
  read_image file_name image_format = Ok image ->
  agrees (d !! "width") (snd (shape2 image)) = true ->
  agrees (d !! "height") (fst (shape2 image)) = true ->
  d !! "instance" = Some (VAnnos anns) -> anns <> [] ->
  d !! "labels" = None ->
  snd (mapper l s) = Raise (KeyError "labels").
Proof.
  intros Hd Hf Himg Hw Hh Hinst Hne Hlabs.
  destruct (augmentations image) as [image' transforms] eqn:Haug.
  destruct (call_to_instance s l d file_name image image' transforms
              Hd Hf Himg Hw Hh Haug) as [Hc2 Hrun].
  rewrite Hrun.
  erewrite bind_Ok;
    [| eapply getitem_Ok; [exact Hc2 |];
       rewrite lookup_insert_ne by discriminate; exact Hinst].
  erewrite (bind_Ok _ _ _ _ anns) by reflexivity.
  erewrite (bind_Ok _ _ _ _ tt)
    by (destruct anns; [contradiction | reflexivity]).
  erewrite bind_Raise; [reflexivity |].
  eapply getitem_KeyError; [exact Hc2 |].
  rewrite lookup_insert_ne by discriminate. exact Hlabs.
Qed.

(** X11: The exception of the codec is not swallowed: when the payloads before
    a labelled instance give their masks and the codec raises on that
    instance, the call raises the same exception. *)
Theorem decode_error_propagates (s : store) (l : nat)
    (d : gmap string (value Payload)) (file_name : string)
    (image : Array3) (pre post : list Payload) (inst : Payload)
    (labs : list Z) (height width : Z) (new : list Array2) (e : exn) :
  s !! l = Some d ->
  d !! "file_name" = Some (VStr file_name) ->
  read_image file_name image_format = Ok image ->
  d !! "height" = Some (VInt height) -> d !! "width" = Some (VInt width) ->
  height = Z.of_nat (fst (shape2 image)) ->
  width = Z.of_nat (snd (shape2 image)) ->
  d !! "instance" = Some (VAnnos (pre ++ inst :: post)) ->
  d !! "labels" = Some (VInts labs) ->
  (length pre < length labs)%nat ->
  rmapM (fun i => instance_mask frPyObjects_decode
                    (snd (augmentations image)) i height width) pre = Ok new ->
  frPyObjects_decode inst height width = Raise e ->
  snd (mapper l s) = Raise e.
Proof.
  intros Hd Hf Himg Hh Hw Eh Ew Hinst Hlabs Hlen Hpre He.
  destruct (augmentations image) as [image' transforms] eqn:Haug.
  assert (Hagw : agrees (d !! "width") (snd (shape2 image)) = true).
  { rewrite Hw, Ew. simpl. apply Z.eqb_refl. }
  assert (Hagh : agrees (d !! "height") (fst (shape2 image)) = true).
  { rewrite Hh, Eh. simpl. apply Z.eqb_refl. }
  destruct (call_to_loop s l d file_name image image' transforms
              (pre ++ inst :: post) labs Hd Hf Himg Hagw Hagh Haug Hinst)
    as [Hc2 Hrun]; [destruct pre; discriminate | exact Hlabs |].
  rewrite Hrun. erewrite bind_Raise; [reflexivity |].
  eapply (loop_zip_Raise _ transforms _ height width); try eassumption.
  - rewrite lookup_insert_ne by discriminate. exact Hh.
  - rewrite lookup_insert_ne by discriminate. exact Hw.
  - unfold instance_mask. rewrite He. reflexivity.
Qed.

(** X12: A labelled instance whose payload decodes to a 2-D array (a single
    run-length object instead of a list of parts) makes the call raise at
    the sum along the third axis. *)
Theorem two_dim_decode_raises (s : store) (l : nat)
    (d : gmap string (value Payload)) (file_name : string)
    (image : Array3) (pre post : list Payload) (inst : Payload)
    (labs : list Z) (height width : Z) (new : list Array2) (m : Array2) :
  s !! l = Some d ->
  d !! "file_name" = Some (VStr file_name) ->
  read_image file_name image_format = Ok image ->
  d !! "height" = Some (VInt height) -> d !! "width" = Some (VInt width) ->
  height = Z.of_nat (fst (shape2 image)) ->
  width = Z.of_nat (snd (shape2 image)) ->
  d !! "instance" = Some (VAnnos (pre ++ inst :: post)) ->
  d !! "labels" = Some (VInts labs) ->
  (length pre < length labs)%nat ->
  rmapM (fun i => instance_mask frPyObjects_decode
                    (snd (augmentations image)) i height width) pre = Ok new ->
  frPyObjects_decode inst height width = Ok (Dec2 m) ->
  snd (mapper l s) = Raise AxisError.
Proof.
  intros Hd Hf Himg Hh Hw Eh Ew Hinst Hlabs Hlen Hpre He.
  destruct (augmentations image) as [image' transforms] eqn:Haug.
  assert (Hagw : agrees (d !! "width") (snd (shape2 image)) = true).
  { rewrite Hw, Ew. simpl. apply Z.eqb_refl. }
  assert (Hagh : agrees (d !! "height") (fst (shape2 image)) = true).
  { rewrite Hh, Eh. simpl. apply Z.eqb_refl. }
  destruct (call_to_loop s l d file_name image image' transforms
              (pre ++ inst :: post) labs Hd Hf Himg Hagw Hagh Haug Hinst)
    as [Hc2 Hrun]; [destruct pre; discriminate | exact Hlabs |].
  rewrite Hrun. erewrite bind_Raise; [reflexivity |].
  eapply (loop_zip_Raise _ transforms _ height width); try eassumption.
  - rewrite lookup_insert_ne by discriminate. exact Hh.
  - rewrite lookup_insert_ne by discriminate. exact Hw.
  - unfold instance_mask. rewrite He. reflexivity.
Qed.

End Errors.

(** ** The returned record *)

Section Returned.

Context {Payload : Type}.
Variable image_format : string.
Variable read_image : string -> string -> result Array3.
Variable augmentations : Array3 -> Array3 * Transform.
Variable frPyObjects_decode : Payload -> Z -> Z -> result decoded.

Local Abbreviation store := (gmap nat (gmap string (value Payload))).
Local Abbreviation mapper :=
  (__call__ Payload image_format read_image augmentations frPyObjects_decode).

Lemma loop_of_rows (c : nat) (transforms : Transform)
    (o : gmap string (value Payload)) (s : store)
    (pairs : list (Payload * Z)) (new : list Array2) :
  s !! c = Some o ->
  Forall2 (row_of frPyObjects_decode o transforms) pairs new ->
  forall masks classes,
    loop frPyObjects_decode c transforms pairs masks classes s
    = (s, Ok (masks ++ new, classes ++ map snd pairs)).
Proof.
  intros Hs Hrows. induction Hrows as [|[inst label] m pairs new Hrow _ IH];
    intros masks classes; simpl.
  - rewrite !app_nil_r. reflexivity.
  - destruct Hrow as (height & width & Hh & Hw & Hm). simpl in Hm.
    unfold bind at 1, getitem at 1. rewrite Hs, Hh.
    unfold bind at 1, lift at 1. simpl.
    unfold bind at 1, getitem at 1. rewrite Hs, Hw.
    unfold bind at 1, lift at 1. simpl.
    unfold bind at 1, lift at 1. rewrite Hm.
    rewrite IH, <- !app_assoc. reflexivity.
Qed.

Lemma output_of_twice (d : gmap string (value Payload)) (image : Array3)
    (insts : Instances) :
  output_of (output_of d image insts) image insts = output_of d image insts.
Proof.
  unfold output_of. apply map_eq. intros key.
  destruct (decide (key = "instances")) as [-> | Hk1].
  - rewrite !lookup_insert_eq. reflexivity.
  - rewrite (lookup_insert_ne _ "instances" key) by congruence.
    destruct (decide (key = "image")) as [-> | Hk2].
    + rewrite lookup_insert_eq.
      rewrite (lookup_insert_ne _ "instances" "image") by discriminate.
      rewrite lookup_insert_eq. reflexivity.
    + rewrite !(lookup_insert_ne _ "image" key) by congruence.
      rewrite (lookup_insert_ne _ "instances" key) by congruence.
      rewrite (lookup_insert_ne _ "image" key) by congruence. reflexivity.
Qed.

(** X13: The record that the call returns is a new object: its reference is
    not the argument, it designated nothing before the call, and the call
    adds this one object to the store. *)
Theorem returned_record_is_new (s s' : store) (l l' : nat) :
  mapper l s = (s', Ok l') ->
  l' <> l /\ s !! l' = None /\ is_Some (s' !! l') /\
  dom s' = dom s ∪ {[l']}.
Proof.
  intros Hrun.
  apply call_Ok_inv in Hrun
    as (d & f & image & image' & T & anns & labs & new & insts & Hd & ->
        & _ & _ & _ & _ & _ & _ & _ & _ & _ & _ & ->).
  assert (Hfresh : fresh (dom s) ∉ dom s) by apply is_fresh.
  split.
  - intros Heq. apply Hfresh. rewrite Heq. apply elem_of_dom. eauto.
  - split; [apply not_elem_of_dom; exact Hfresh |].
    split; [rewrite lookup_insert_eq; eauto |].
    rewrite dom_insert_L. apply (comm_L (∪)).
Qed.

(** X14: A record that the call returned can be given to the call again: with
    the same reader, augmentation and codec results, the second call
    returns, in one more new object, a record equal to the first. *)
Theorem mapped_record_maps_to_itself (s s' : store) (l l' : nat) :
  mapper l s = (s', Ok l') ->
  exists s'' l'',
    mapper l' s' = (s'', Ok l'') /\ l'' <> l' /\ s'' !! l'' = s' !! l'.
Proof.
  intros Hrun.
  apply call_Ok_inv in Hrun
    as (d & f & image & image' & T & anns & labs & new & insts & Hd & ->
        & Hf & Himg & Hw & Hh & Haug & Hinst & Hne & Hlabs & Hrows & Hmk & ->).
  set (c := fresh (dom s)).
  set (out := output_of d image' insts).
  set (s' := <[c := out]> s).
  assert (Hout : s' !! c = Some out) by apply lookup_insert_eq.
  assert (Hkeep : forall key, key <> "image" -> key <> "instances" ->
                              out !! key = d !! key).
  { intros key H1 H2. unfold out, output_of.
    rewrite !lookup_insert_ne by congruence. reflexivity. }
  pose proof (call_Ok image_format read_image augmentations frPyObjects_decode
                s' c out f image image' T anns labs new insts Hout) as Hagain.
  rewrite !Hkeep in Hagain by discriminate.
  specialize (Hagain Hf Himg Hw Hh Haug Hinst Hne Hlabs).
  assert (Hloop :
    let s2 := <[fresh (dom s')
                := <["image" := VTensor (transpose_2_0_1 image')]> out]> s' in
    loop frPyObjects_decode (fresh (dom s')) T (zip anns labs) [] [] s2
    = (s2, Ok (new, map snd (zip anns labs)))).
  { cbv zeta.
    refine (loop_of_rows (fresh (dom s')) T
              (<["image" := VTensor (transpose_2_0_1 image')]> out)
              _ (zip anns labs) new _ _ [] []);
      [apply lookup_insert_eq |].
    eapply Forall2_impl; [exact Hrows |].
    intros p m (height & width & Hh' & Hw' & Hm).
    exists height, width.
    rewrite !lookup_insert_ne by discriminate.
    rewrite !Hkeep by discriminate. repeat split; assumption. }
  specialize (Hagain Hloop Hmk).
  exists (<[fresh (dom s') := output_of out image' insts]> s'), (fresh (dom s')).
  split; [exact Hagain |]. split.
  - intros Heq. apply (is_fresh (dom s')). rewrite Heq.
    apply elem_of_dom. eauto.
  - rewrite lookup_insert_eq, Hout. unfold out at 1.
    rewrite output_of_twice. reflexivity.
Qed.

End Returned.

(** ** Labels that do not fit 64 bits *)


Section LabelRange.

Context {Payload : Type}.
Variable image_format : string.
Variable read_image : string -> string -> result Array3.
Variable augmentations : Array3 -> Array3 * Transform.
Variable frPyObjects_decode : Payload -> Z -> Z -> result decoded.

Local Abbreviation store := (gmap nat (gmap string (value Payload))).
Local Abbreviation mapper :=
  (__call__ Payload image_format read_image augmentations frPyObjects_decode).


End LabelRange.

(** ** The constructor and its configuration *)

Section ConfigFacts.

Context {Augmentation CropSize : Type}.
Variable build_augmentation : CfgNode CropSize -> bool -> list Augmentation.
Variable RandomCrop : string -> CropSize -> Augmentation.
Variable create_keypoint_hflip_indices : list string -> list Z.

Local Abbreviation build :=
  (configured build_augmentation RandomCrop create_keypoint_hflip_indices).

(** X17: A mapper built from a configuration never trips the assertion of the
    constructor: it recomputes boxes only when cropping is enabled, in
    training, with masks on, and then it uses instance masks. The crop is
    put before the augmentations that were built, which follow unchanged. *)
Theorem configured_never_fails (cfg : CfgNode CropSize) (train : bool) :
  exists self,
    build cfg train = Ok self /\
    recompute_boxes self
      = INPUT_CROP_ENABLED cfg && train && MODEL_MASK_ON cfg /\
    use_instance_mask self = MODEL_MASK_ON cfg /\
    (recompute_boxes self = true -> use_instance_mask self = true) /\
    self_augmentations self
      = (if INPUT_CROP_ENABLED cfg && train
         then [RandomCrop (INPUT_CROP_TYPE cfg) (INPUT_CROP_SIZE cfg)]
         else []) ++ build_augmentation cfg train.
Proof.
  unfold configured, from_config, __init__.
  destruct (INPUT_CROP_ENABLED cfg), train, (MODEL_MASK_ON cfg); simpl;
    eexists; (split; [reflexivity |]); simpl; repeat split; auto.
Qed.

(** X18: In inference no crop is inserted and boxes are not recomputed,
    whatever the configuration says about cropping; the proposal top-k,
    when proposals are loaded, is the one of the test split. *)
Theorem configured_for_inference (cfg : CfgNode CropSize) :
  exists self,
    build cfg false = Ok self /\
    is_train self = false /\
    recompute_boxes self = false /\
    self_augmentations self = build_augmentation cfg false /\
    proposal_topk self
      = (if MODEL_LOAD_PROPOSALS cfg
         then Some (DATASETS_PRECOMPUTED_PROPOSAL_TOPK_TEST cfg) else None).
Proof.
  unfold configured, from_config, __init__.
  rewrite andb_false_r. simpl. eexists. split; [reflexivity |].
  simpl. repeat split.
Qed.

(** X19: Called directly, the constructor raises exactly when boxes are to be
    recomputed without instance masks, and nothing but the assertion. *)
Theorem init_assertion (train : bool) (augs : list Augmentation)
    (format : string) (masks keypoints : bool) (mask_format : string)
    (hflip : option (list Z)) (topk : option Z) (recompute : bool) :
  (__init__ train augs format masks keypoints mask_format hflip topk recompute
   = Raise AssertionError <-> recompute = true /\ masks = false) /\
  (forall e,
     __init__ train augs format masks keypoints mask_format hflip topk recompute
     = Raise e -> e = AssertionError).
Proof.
  unfold __init__. destruct recompute, masks; simpl; split;
    try (split; [intros H; try discriminate H; auto | intros [H1 H2];
                 try discriminate H1; try discriminate H2; reflexivity]);
    intros e H; try discriminate H; injection H as <-; reflexivity.
Qed.

End ConfigFacts.

(** ** [_transform_annotations] works in place *)

Section AnnotationFacts.

Context {Field Augmentation TransformList : Type}.

Local Abbreviation annotation := (gmap string (value Field)).
Local Abbreviation dicts := (gmap nat (gmap string (value nat))).
Local Abbreviation annotations := (gmap nat (gmap string (value Field))).

Variable transform_instance_annotations :
  annotation -> TransformList -> nat * nat -> option (list Z) ->
  result annotation.
Variable annotations_to_instances :
  list annotation -> nat * nat -> string -> result Instances.
Variable gt_masks_get_bounding_boxes : Instances -> result Tensor2.
Variable filter_empty_instances : Instances -> Instances.

Local Abbreviation transform_annotations :=
  (_transform_annotations transform_instance_annotations
     annotations_to_instances gt_masks_get_bounding_boxes
     filter_empty_instances).
Local Abbreviation built :=
  (instances_of transform_instance_annotations annotations_to_instances
     gt_masks_get_bounding_boxes filter_empty_instances).

Lemma bindA_Ok {A B} (c : MA Field A) (k : A -> MA Field B)
    (st st1 : dicts * annotations) (a : A) :
  c st = (st1, Ok a) -> bindA c k st = k a st1.
Proof. unfold bindA. intros ->. reflexivity. Qed.

Lemma bindA_Raise {A B} (c : MA Field A) (k : A -> MA Field B)
    (st st1 : dicts * annotations) (e : exn) :
  c st = (st1, Raise e) -> bindA c k st = (st1, Raise e).
Proof. unfold bindA. intros ->. reflexivity. Qed.

Lemma bindA_Ok_inv {A B} (c : MA Field A) (k : A -> MA Field B)
    (st st' : dicts * annotations) (b : B) :
  bindA c k st = (st', Ok b) ->
  exists a st1, c st = (st1, Ok a) /\ k a st1 = (st', Ok b).
Proof.
  unfold bindA. destruct (c st) as [st1 [a|e]]; [| discriminate].
  intros H. exists a, st1. split; [reflexivity | exact H].
Qed.

Lemma not_crowd_strip (self : Self Augmentation) (anno : annotation) :
  not_crowd (strip self anno) = not_crowd anno.
Proof.
  unfold not_crowd, strip.
  destruct (use_instance_mask self), (use_keypoint self);
    rewrite ?lookup_delete_ne by discriminate; reflexivity.
Qed.

Lemma filter_map_strip (self : Self Augmentation) (annos : list annotation) :
  List.filter not_crowd (map (strip self) annos)
  = map (strip self) (List.filter not_crowd annos).
Proof.
  induction annos as [|a annos IH]; simpl; [reflexivity |].
  rewrite not_crowd_strip. destruct (not_crowd a); simpl; rewrite IH;
    reflexivity.
Qed.

Lemma strip_drops (self : Self Augmentation) (anno : annotation) :
  (use_instance_mask self = false -> strip self anno !! "segmentation" = None)
  /\ (use_keypoint self = false -> strip self anno !! "keypoints" = None).
Proof.
  unfold strip. split; intros ->.
  - destruct (use_keypoint self);
      rewrite ?lookup_delete_ne by discriminate; apply lookup_delete_eq.
  - apply lookup_delete_eq.
Qed.

Lemma strip_idemp (self : Self Augmentation) (anno : annotation) :
  strip self (strip self anno) = strip self anno.
Proof.
  unfold strip. destruct (use_instance_mask self), (use_keypoint self);
    try reflexivity.
  all: apply map_eq; intros key.
  all: destruct (decide (key = "keypoints")) as [Hk | Hk];
       destruct (decide (key = "segmentation")) as [Hs | Hs]; subst;
       try discriminate.
  all: repeat first [ rewrite lookup_delete_eq
                    | rewrite lookup_delete_ne by (discriminate || congruence) ].
  all: reflexivity.
Qed.

(** One turn of the first loop on an annotation object that is there. *)
Lemma strip_one_spec (self : Self Augmentation) (r : nat) (ds : dicts)
    (objs : annotations) (a : annotation) :
  objs !! r = Some a ->
  strip_one self r (ds, objs) = ((ds, <[r := strip self a]> objs), Ok tt).
Proof.
  intros Hr. unfold strip_one, strip, bindA, anno_pop, retA.
  destruct (use_instance_mask self), (use_keypoint self); simpl.
  - rewrite (insert_id objs r a Hr). reflexivity.
  - rewrite Hr. reflexivity.
  - rewrite Hr. reflexivity.
  - rewrite Hr. simpl. rewrite lookup_insert_eq, insert_insert_eq.
    reflexivity.
Qed.

Lemma strip_one_Ok_inv (self : Self Augmentation) (r : nat) (ds : dicts)
    (objs : annotations) (st' : dicts * annotations) (u : unit) :
  strip_one self r (ds, objs) = (st', Ok u) ->
  exists objs1, st' = (ds, objs1) /\
    forall r', objs1 !! r' = if decide (r' = r)
                             then strip self <$> objs !! r'
                             else objs !! r'.
Proof.
  destruct (objs !! r) as [a|] eqn:Hr.
  - rewrite (strip_one_spec self r ds objs a Hr). intros [= <-].
    eexists. split; [reflexivity |]. intros r'.
    destruct (decide (r' = r)) as [-> | Hne].
    + rewrite lookup_insert_eq, Hr. reflexivity.
    + apply lookup_insert_ne. congruence.
  - unfold strip_one, bindA, anno_pop, retA.
    destruct (use_instance_mask self) eqn:Hm, (use_keypoint self) eqn:Hk;
      simpl; rewrite ?Hr; try discriminate.
    intros [= <-]. exists objs. split; [reflexivity |]. intros r'.
    destruct (decide (r' = r)) as [-> | Hne]; [| reflexivity].
    rewrite Hr. reflexivity.
Qed.

Lemma strip_loop_Ok_inv (self : Self Augmentation) (refs : list nat)
    (ds : dicts) :
  forall (objs : annotations) (st' : dicts * annotations) (u : unit),
    strip_loop self refs (ds, objs) = (st', Ok u) ->
    exists objs', st' = (ds, objs') /\ stripped self refs objs objs'.
Proof.
  induction refs as [|r0 refs IH]; intros objs st' u; simpl.
  - unfold retA. intros [= <-]. exists objs. split; [reflexivity |].
    intros r. destruct (decide (r ∈ [])) as [Hin | _]; [| reflexivity].
    apply elem_of_nil in Hin. destruct Hin.
  - intros Hrun. apply bindA_Ok_inv in Hrun as (u1 & st1 & Hone & Hrest).
    apply strip_one_Ok_inv in Hone as (objs1 & -> & H1).
    apply IH in Hrest as (objs' & -> & H2).
    exists objs'. split; [reflexivity |]. intros r.
    rewrite (H2 r).
    destruct (decide (r ∈ refs)) as [Hin | Hnin].
    + rewrite decide_True by (apply elem_of_cons; auto).
      rewrite (H1 r).
      destruct (decide (r = r0)) as [-> | Hne]; [| reflexivity].
      destruct (objs !! r0) as [a|]; [| reflexivity].
      change (Some (strip self (strip self a)) = Some (strip self a)).
      rewrite strip_idemp. reflexivity.
    + rewrite (H1 r).
      destruct (decide (r = r0)) as [-> | Hne].
      * rewrite decide_True by (apply elem_of_cons; auto). reflexivity.
      * rewrite decide_False; [reflexivity |].
        intros Hc. apply elem_of_cons in Hc as [Hc | Hc]; contradiction.
Qed.

Lemma strip_loop_valid (self : Self Augmentation) (refs : list nat)
    (ds : dicts) :
  forall objs : annotations,
    Forall (fun r => is_Some (objs !! r)) refs ->
    exists st', strip_loop self refs (ds, objs) = (st', Ok tt).
Proof.
  induction refs as [|r0 refs IH]; intros objs Hvalid; simpl.
  - eexists. reflexivity.
  - inversion Hvalid as [|r0' refs' [a Ha] Hrest]; subst.
    rewrite (bindA_Ok _ _ _ _ _ (strip_one_spec self r0 ds objs a Ha)).
    apply IH. apply List.Forall_forall. intros r Hr.
    rewrite List.Forall_forall in Hrest. specialize (Hrest r Hr).
    destruct (decide (r = r0)) as [-> | Hne].
    + rewrite lookup_insert_eq. eauto.
    + rewrite lookup_insert_ne by congruence. exact Hrest.
Qed.

(** The comprehension reads the annotation objects and leaves the stores
    as they are. *)
Lemma transform_loop_spec (self : Self Augmentation)
    (transforms : TransformList) (image_shape : nat * nat)
    (st : dicts * annotations) (refs : list nat) (contents : list annotation) :
  Forall2 (fun r a => snd st !! r = Some a) refs contents ->
  transform_loop transform_instance_annotations self refs transforms
                 image_shape st
  = (st, rmapM (fun obj => transform_instance_annotations obj transforms
                             image_shape (keypoint_hflip_indices self))
               (List.filter not_crowd contents)).
Proof.
  induction 1 as [|r a refs contents Hr _ IH]; simpl; [reflexivity |].
  unfold bindA at 1, anno_read at 1. rewrite Hr.
  destruct (not_crowd a); simpl; [| exact IH].
  unfold bindA at 1, liftA at 1.
  destruct (transform_instance_annotations a _ _ _) as [t|e]; simpl;
    [| reflexivity].
  unfold bindA at 1. rewrite IH.
  destruct (rmapM _ _) as [ts|e]; reflexivity.
Qed.

Lemma transform_loop_Ok_inv (self : Self Augmentation)
    (transforms : TransformList) (image_shape : nat * nat)
    (st : dicts * annotations) (refs : list nat) :
  forall (st' : dicts * annotations) (out : list annotation),
    transform_loop transform_instance_annotations self refs transforms
                   image_shape st = (st', Ok out) ->
    Forall (fun r => is_Some (snd st !! r)) refs.
Proof.
  induction refs as [|r refs IH]; intros st' out; simpl; [constructor |].
  unfold bindA at 1, anno_read at 1.
  destruct (snd st !! r) as [a|] eqn:Hr; [| discriminate].
  intros Hrun. constructor; [rewrite Hr; eauto |].
  destruct (not_crowd a); [| exact (IH _ _ Hrun)].
  unfold bindA at 1, liftA at 1 in Hrun.
  destruct (transform_instance_annotations a _ _ _) as [t|e];
    [| discriminate].
  unfold bindA at 1 in Hrun.
  destruct (transform_loop _ self refs transforms image_shape st)
    as [st1 [ts|e]] eqn:Hrest; [| discriminate].
  exact (IH _ _ eq_refl).
Qed.

Lemma valid_contents (objs : annotations) (refs : list nat) :
  Forall (fun r => is_Some (objs !! r)) refs ->
  exists contents, Forall2 (fun r a => objs !! r = Some a) refs contents.
Proof.
  induction 1 as [|r refs [a Ha] _ [contents IH]].
  - exists []. constructor.
  - exists (a :: contents). constructor; assumption.
Qed.

Lemma contents_valid (objs : annotations) (refs : list nat)
    (contents : list annotation) :
  Forall2 (fun r a => objs !! r = Some a) refs contents ->
  Forall (fun r => is_Some (objs !! r)) refs.
Proof. induction 1; constructor; eauto. Qed.

Lemma stripped_contents (self : Self Augmentation) (objs objs' : annotations)
    (all refs : list nat) (contents : list annotation) :
  stripped self all objs objs' ->
  (forall r, r ∈ refs -> r ∈ all) ->
  Forall2 (fun r a => objs !! r = Some a) refs contents ->
  Forall2 (fun r a => objs' !! r = Some a) refs (map (strip self) contents).
Proof.
  intros Hs Hsub H. induction H as [|r a refs contents Hr _ IH]; simpl;
    constructor.
  - rewrite (Hs r). destruct (decide (r ∈ all)) as [_ | Hn].
    + rewrite Hr. reflexivity.
    + exfalso. apply Hn, Hsub. apply elem_of_cons. auto.
  - apply IH. intros r' Hr'. apply Hsub. apply elem_of_cons. auto.
Qed.

(** The whole run, for a dict whose annotations are all there. *)
Lemma transform_annotations_run (self : Self Augmentation) (l : nat)
    (transforms : TransformList) (image_shape : nat * nat) (ds : dicts)
    (objs : annotations) (d : gmap string (value nat)) (refs : list nat)
    (contents : list annotation) :
  ds !! l = Some d ->
  d !! "annotations" = Some (VAnnos refs) ->
  Forall2 (fun r a => objs !! r = Some a) refs contents ->
  exists objs', stripped self refs objs objs' /\
    transform_annotations self l transforms image_shape (ds, objs) =
    match built self (map (strip self) contents) transforms image_shape with
    | Ok insts =>
        ((<[l := <["instances" := VInstances insts]>
                   (delete "annotations" d)]> ds, objs'), Ok tt)
    | Raise e => ((<[l := delete "annotations" d]> ds, objs'), Raise e)
    end.
Proof.
  intros Hd Hannos Hcontents.
  destruct (strip_loop_valid self refs ds objs
              (contents_valid _ _ _ Hcontents)) as [st1 Hstrip].
  destruct (strip_loop_Ok_inv self refs ds objs st1 tt Hstrip)
    as (objs' & -> & Hs).
  exists objs'. split; [exact Hs |].
  pose proof (stripped_contents self objs objs' refs refs contents Hs
                (fun r H => H) Hcontents) as Hcontents'.
  unfold _transform_annotations, instances_of.
  rewrite (bindA_Ok _ _ (ds, objs) (ds, objs) (VAnnos refs))
    by (unfold on_dicts; simpl;
        rewrite (getitem_Ok l "annotations" ds d _ Hd Hannos); reflexivity).
  rewrite (bindA_Ok _ _ (ds, objs) (ds, objs) refs) by reflexivity.
  rewrite (bindA_Ok _ _ _ _ _ Hstrip).
  set (ds2 := <[l := delete "annotations" d]> ds).
  rewrite (bindA_Ok _ _ (ds, objs') (ds2, objs') (VAnnos refs))
    by (unfold on_dicts, dict_pop; simpl; rewrite Hd, Hannos; reflexivity).
  assert (Hds2 : ds2 !! l = Some (delete "annotations" d))
    by apply lookup_insert_eq.
  rewrite (bindA_Ok _ _ (ds2, objs') (ds2, objs') refs) by reflexivity.
  unfold bindA at 1.
  rewrite (transform_loop_spec self transforms image_shape (ds2, objs') refs
             (map (strip self) contents) Hcontents').
  destruct (rmapM _ (List.filter not_crowd (map (strip self) contents)))
    as [tr|e] eqn:Htr; simpl; [| reflexivity].
  unfold bindA at 1, liftA at 1.
  destruct (annotations_to_instances tr image_shape _) as [base|e] eqn:Hbase;
    simpl; [| reflexivity].
  assert (Hset : forall insts,
            on_dicts (Field := Field)
              (setitem l "instances" (VInstances insts)) (ds2, objs')
            = ((<[l := <["instances" := VInstances insts]>
                        (delete "annotations" d)]> ds, objs'), Ok tt)).
  { intros insts. unfold on_dicts. simpl.
    rewrite (setitem_Ok l "instances" _ ds2 _ Hds2).
    unfold ds2. rewrite insert_insert_eq. reflexivity. }
  destruct (recompute_boxes self).
  - unfold bindA at 1. unfold bindA at 1, liftA at 1.
    destruct (gt_masks_get_bounding_boxes base) as [boxes|e]; simpl;
      [| reflexivity].
    apply Hset.
  - unfold bindA at 1, retA at 1. simpl. apply Hset.
Qed.

(** What a successful run tells about the dict and its annotations. *)
Lemma transform_annotations_Ok_inv (self : Self Augmentation) (l : nat)
    (transforms : TransformList) (image_shape : nat * nat) (ds : dicts)
    (objs : annotations) (st' : dicts * annotations) (u : unit) :
  transform_annotations self l transforms image_shape (ds, objs) = (st', Ok u) ->
  exists d refs contents,
    ds !! l = Some d /\ d !! "annotations" = Some (VAnnos refs) /\
    Forall2 (fun r a => objs !! r = Some a) refs contents.
Proof.
  intros Hrun. unfold _transform_annotations in Hrun.
  apply bindA_Ok_inv in Hrun as (v & st1 & Hget & Hrun).
  unfold on_dicts, getitem in Hget. simpl in Hget.
  destruct (ds !! l) as [d|] eqn:Hd; [| discriminate].
  destruct (d !! "annotations") as [v'|] eqn:Hv; [| discriminate].
  injection Hget as <- <-.
  apply bindA_Ok_inv in Hrun as (refs & st2 & Hl & Hrun).
  unfold liftA in Hl. destruct v' as [| | refs' | | |]; try discriminate.
  injection Hl as <- <-.
  apply bindA_Ok_inv in Hrun as (u1 & st3 & Hstrip & Hrun).
  apply strip_loop_Ok_inv in Hstrip as (objs1 & -> & Hs).
  apply bindA_Ok_inv in Hrun as (v2 & st4 & Hpop & Hrun).
  unfold on_dicts, dict_pop in Hpop. simpl in Hpop. rewrite Hd, Hv in Hpop.
  injection Hpop as <- <-.
  apply bindA_Ok_inv in Hrun as (refs2 & st5 & Hl & Hrun).
  unfold liftA in Hl. injection Hl as <- <-.
  apply bindA_Ok_inv in Hrun as (out & st6 & Hloop & _).
  apply transform_loop_Ok_inv in Hloop. simpl in Hloop.
  exists d, refs'.
  destruct (valid_contents objs refs') as [contents Hc].
  - apply List.Forall_forall. intros r Hr.
    rewrite List.Forall_forall in Hloop. specialize (Hloop r Hr).
    rewrite (Hs r) in Hloop.
    destruct (decide (r ∈ refs')); [| exact Hloop].
    destruct (objs !! r); [eauto | destruct Hloop; discriminate].
  - exists contents. repeat split; assumption.
Qed.

(** X20: A dataset dict without 'annotations' raises the KeyError of that key
    and everything is left as it was. *)
Theorem missing_annotations_raises (self : Self Augmentation) (l : nat)
    (transforms : TransformList) (image_shape : nat * nat) (ds : dicts)
    (objs : annotations) (d : gmap string (value nat)) :
  ds !! l = Some d -> d !! "annotations" = None ->
  transform_annotations self l transforms image_shape (ds, objs)
  = ((ds, objs), Raise (KeyError "annotations")).
Proof.
  intros Hd Hv. unfold _transform_annotations, bindA, on_dicts, getitem.
  simpl. rewrite Hd, Hv. reflexivity.
Qed.



(** X23: What reaches the transform: the annotations that are not crowd, in
    their order, each without 'segmentation' when instance masks are off
    and without 'keypoints' when keypoints are off. The instances of the
    dict are built from their transforms, one per kept annotation. *)
Theorem transform_annotations_keeps_non_crowd (self : Self Augmentation)
    (l : nat) (transforms : TransformList) (image_shape : nat * nat)
    (ds : dicts) (objs : annotations) (st' : dicts * annotations) (u : unit) :
  transform_annotations self l transforms image_shape (ds, objs) = (st', Ok u) ->
  exists d refs annos kept transformed base,
    ds !! l = Some d /\ d !! "annotations" = Some (VAnnos refs) /\
    Forall2 (fun r a => objs !! r = Some a) refs annos /\
    kept = map (strip self) (List.filter not_crowd annos) /\
    Forall (fun a => not_crowd a = true /\
                     (use_instance_mask self = false ->
                      a !! "segmentation" = None) /\
                     (use_keypoint self = false -> a !! "keypoints" = None))
           kept /\
    Forall2 (fun a t => transform_instance_annotations a transforms
                          image_shape (keypoint_hflip_indices self) = Ok t)
            kept transformed /\
    (length transformed <= length annos)%nat /\
    annotations_to_instances transformed image_shape
                             (instance_mask_format self) = Ok base.
Proof.
  intros Hrun.
  destruct (transform_annotations_Ok_inv _ _ _ _ _ _ _ _ Hrun)
    as (d & refs & annos & Hd & Hv & Hc).
  destruct (transform_annotations_run self l transforms image_shape ds objs
              d refs annos Hd Hv Hc) as (objs1 & Hs & Heq).
  rewrite Heq in Hrun.
  unfold instances_of in Hrun. rewrite filter_map_strip in Hrun.
  set (kept := map (strip self) (List.filter not_crowd annos)) in *.
  destruct (rmapM _ kept) as [tr|e] eqn:Htr; simpl in Hrun;
    [| discriminate Hrun].
  destruct (annotations_to_instances tr image_shape _) as [base|e] eqn:Hbase;
    simpl in Hrun; [| discriminate Hrun].
  exists d, refs, annos, kept, tr, base.
  split; [exact Hd |]. split; [exact Hv |]. split; [exact Hc |].
  split; [reflexivity |].
  split.
  - unfold kept. apply List.Forall_forall. intros a Ha.
    apply in_map_iff in Ha as (a0 & <- & Ha0).
    apply List.filter_In in Ha0 as [_ Hcrowd].
    split; [rewrite not_crowd_strip; exact Hcrowd | apply strip_drops].
  - split; [| split; [| exact Hbase]].
    + clear -Htr. revert tr Htr.
      induction kept as [|a kept IH]; simpl; intros tr Htr.
      * injection Htr as <-. constructor.
      * destruct (transform_instance_annotations a _ _ _) as [t|] eqn:Ht;
          simpl in Htr; [| discriminate].
        destruct (rmapM _ kept) as [ts|]; simpl in Htr; [| discriminate].
        injection Htr as <-. constructor; [exact Ht | apply IH; reflexivity].
    + rewrite (rmapM_length _ _ _ Htr). unfold kept. rewrite length_map.
      apply List.filter_length_le.
Qed.

End AnnotationFacts.

(** ** The further properties on concrete inputs *)

Lemma pair_of_snd {A B} (p : A * B) (b : B) : snd p = b -> p = (fst p, b).
Proof. intros <-. apply surjective_pairing. Qed.

Lemma missing_file_name_raises_witness :
  snd (Fixture.mapper 0%nat Examples.no_file_name)
  = Raise (KeyError "file_name").
Proof.
  apply (missing_file_name_raises "BGR" Fixture.reader Fixture.identity
           Fixture.codec Examples.no_file_name 0%nat
           (delete "file_name"
                   (Fixture.record 2 3 [Dec3 Fixture.disjoint] [5])));
    reflexivity.
Defined.

Lemma read_image_error_propagates_witness :
  snd (Fixture.mapper 0%nat Fixture.no_instance_unreadable) = Raise IOError.
Proof.
  apply (read_image_error_propagates "BGR" Fixture.reader Fixture.identity
           Fixture.codec Fixture.no_instance_unreadable 0%nat
           (<["file_name" := VStr "missing.png"]> (Fixture.record 2 3 [] []))
           "missing.png" IOError);
    reflexivity.
Defined.

Lemma missing_instance_raises_witness :
  snd (Fixture.mapper 0%nat Examples.no_instance_key)
  = Raise (KeyError "instance").
Proof.
  apply (missing_instance_raises "BGR" Fixture.reader Fixture.identity
           Fixture.codec Examples.no_instance_key 0%nat
           (delete "instance" (Fixture.record 2 3 [] [5]))
           "a.png" Fixture.picture);
    reflexivity.
Defined.

Lemma missing_labels_raises_witness :
  snd (Fixture.mapper 0%nat Examples.no_labels_key)
  = Raise (KeyError "labels").
Proof.
  apply (missing_labels_raises "BGR" Fixture.reader Fixture.identity
           Fixture.codec Examples.no_labels_key 0%nat
           (delete "labels" (Fixture.record 2 3 [Dec3 Fixture.disjoint] []))
           "a.png" Fixture.picture [Dec3 Fixture.disjoint]);
    try reflexivity.
  discriminate.
Defined.

Lemma decode_error_propagates_witness :
  snd (Examples.strict_mapper 0%nat
         (<[0%nat := Examples.undecodable_record]> ∅))
  = Raise DecodeError.
Proof.
  apply (decode_error_propagates "BGR" Fixture.reader Fixture.identity
           Examples.strict_codec
           (<[0%nat := Examples.undecodable_record]> ∅) 0%nat
           Examples.undecodable_record "a.png" Fixture.picture
           [Some (Dec3 Fixture.disjoint)] [] None [5; 7] 2 3
           [[[1; 0; 0]; [1; 1; 0]]] DecodeError);
    first [ reflexivity | simpl; lia ].
Defined.

Lemma two_dim_decode_raises_witness :
  snd (Fixture.mapper 0%nat (Fixture.store_of Examples.run_length_record))
  = Raise AxisError.
Proof.
  apply (two_dim_decode_raises "BGR" Fixture.reader Fixture.identity
           Fixture.codec (Fixture.store_of Examples.run_length_record) 0%nat
           Examples.run_length_record "a.png" Fixture.picture
           [Dec3 Fixture.disjoint] [] (Dec2 [[1; 0; 0]; [0; 0; 0]]) [5; 7] 2 3
           [[[1; 0; 0]; [1; 1; 0]]] [[1; 0; 0]; [0; 0; 0]]);
    first [ reflexivity | simpl; lia ].
Defined.


Lemma returned_record_is_new_witness :
  1%nat <> 0%nat /\ Fixture.two_instances !! 1%nat = None /\
  is_Some (fst (Fixture.mapper 0%nat Fixture.two_instances) !! 1%nat) /\
  dom (fst (Fixture.mapper 0%nat Fixture.two_instances))
  = dom Fixture.two_instances ∪ {[1%nat]}.
Proof.
  apply (returned_record_is_new "BGR" Fixture.reader Fixture.identity
           Fixture.codec Fixture.two_instances _ 0%nat 1%nat).
  apply pair_of_snd. vm_compute. reflexivity.
Defined.

Lemma mapped_record_maps_to_itself_witness :
  exists s'' l'',
    Fixture.mapper 1%nat (fst (Fixture.mapper 0%nat Fixture.two_instances))
    = (s'', Ok l'') /\ l'' <> 1%nat /\
    s'' !! l'' = fst (Fixture.mapper 0%nat Fixture.two_instances) !! 1%nat.
Proof.
  apply (mapped_record_maps_to_itself "BGR" Fixture.reader Fixture.identity
           Fixture.codec Fixture.two_instances _ 0%nat 1%nat).
  apply pair_of_snd. vm_compute. reflexivity.
Defined.

Lemma configured_never_fails_witness :
  exists self,
    configured Examples.build_augmentation Examples.RandomCrop
               Examples.create_keypoint_hflip_indices Examples.cfg true
    = Ok self /\
    recompute_boxes self = true /\ use_instance_mask self = true /\
    self_augmentations self
    = ["RandomCrop"; "ResizeShortestEdge"; "RandomFlip"].
Proof.
  destruct (configured_never_fails Examples.build_augmentation
              Examples.RandomCrop Examples.create_keypoint_hflip_indices
              Examples.cfg true) as (self & Hok & Hr & Hm & _ & Ha).
  exists self. repeat split; assumption.
Defined.

Lemma init_assertion_witness :
  __init__ true ["RandomCrop"] "BGR" false false "polygon" None None true
  = Raise AssertionError.
Proof.
  apply (proj1 (init_assertion true ["RandomCrop"] "BGR" false false
                  "polygon" None None true)).
  split; reflexivity.
Defined.

Lemma missing_annotations_raises_witness :
  snd (Examples.transform_annotations Examples.plain_self 0%nat tt
         (2%nat, 3%nat)
         (Examples.dict_store (delete "annotations" (Examples.annotated [])),
          Examples.two_objects))
  = Raise (KeyError "annotations").
Proof.
  rewrite (missing_annotations_raises Examples.transform Examples.to_instances
             Examples.boxes_of (fun i => i) Examples.plain_self 0%nat tt
             (2%nat, 3%nat) _ _
             (delete "annotations" (Examples.annotated [])));
    reflexivity.
Defined.



Lemma transform_annotations_keeps_non_crowd_witness :
  let st := (Examples.dict_store (Examples.annotated [0%nat; 1%nat]),
             Examples.two_objects) in
  exists d refs annos kept transformed base,
    fst st !! 0%nat = Some d /\ d !! "annotations" = Some (VAnnos refs) /\
    Forall2 (fun r a => snd st !! r = Some a) refs annos /\
    kept = map (strip Examples.plain_self) (List.filter not_crowd annos) /\
    Forall (fun a => not_crowd a = true /\
                     (use_instance_mask Examples.plain_self = false ->
                      a !! "segmentation" = None) /\
                     (use_keypoint Examples.plain_self = false ->
                      a !! "keypoints" = None))
           kept /\
    Forall2 (fun a t => Examples.transform a tt (2%nat, 3%nat)
                          (keypoint_hflip_indices Examples.plain_self) = Ok t)
            kept transformed /\
    (length transformed <= length annos)%nat /\
    Examples.to_instances transformed (2%nat, 3%nat)
                          (instance_mask_format Examples.plain_self) = Ok base.
Proof.
  intros st.
  apply (transform_annotations_keeps_non_crowd Examples.transform
           Examples.to_instances Examples.boxes_of (fun i => i)
           Examples.plain_self 0%nat tt (2%nat, 3%nat) (fst st) (snd st)
           (fst (Examples.transform_annotations Examples.plain_self 0%nat tt
                   (2%nat, 3%nat) st)) tt).
  apply pair_of_snd. vm_compute. reflexivity.
Defined.

(** The two annotation objects above, as computed: the crowd one gives no
    instance, the dict has its instances in place of its annotations, and
    both objects have lost their 'segmentation'. *)
Example transform_annotations_output :
  let st' := fst (Examples.transform_annotations Examples.plain_self 0%nat tt
                    (2%nat, 3%nat)
                    (Examples.dict_store (Examples.annotated [0%nat; 1%nat]),
                     Examples.two_objects)) in
  (exists out,
     fst st' !! 0%nat = Some out /\
     out !! "annotations" = None /\
     out !! "instances" = Some (VInstances
       {| image_size := (2%nat, 3%nat);
          gt_classes := {| t1_shape := 1; t1_data := [5] |};
          gt_masks := torch_zeros3 2 3;
          gt_boxes := torch_zeros2 4 |})) /\
  (exists a, snd st' !! 1%nat = Some a /\ a !! "segmentation" = None /\
             a !! "category_id" = Some (VInt 7)).
Proof.
  intros st'. split.
  - eexists. split; [reflexivity |]. split; vm_compute; reflexivity.
  - eexists. split; [reflexivity |]. split; vm_compute; reflexivity.
Qed.

(** ** The tensors of a returned record *)

Lemma shape2_to_bool (m : Array2) : shape2 (to_bool m) = shape2 m.
Proof.
  unfold shape2, to_bool. rewrite length_map.
  destruct m as [|row m]; simpl; [reflexivity |].
  rewrite length_map. reflexivity.
Qed.

Lemma mask_box_length (h w : nat) (m : Array2) : length (mask_box h w m) = 4%nat.
Proof.
  rewrite mask_box_unfold.
  destruct (List.filter _ (seq 0 w)); [reflexivity |].
  destruct (List.filter _ (seq 0 h)); reflexivity.
Qed.

Lemma make_instances_shapes (image_shape : nat * nat) (masks : list Array2)
    (classes : list Z) (insts : Instances) :
  make_instances image_shape masks classes = Ok insts ->
  image_size insts = image_shape /\
  exists h w,
    t3_shape (gt_masks insts) = (length masks, h, w) /\
    length (t3_data (gt_masks insts)) = length masks /\
    Forall (fun m => shape2 m = (h, w)) (t3_data (gt_masks insts)) /\
    t2_shape (gt_boxes insts) = (length masks, 4%nat) /\
    length (t2_data (gt_boxes insts)) = length masks /\
    Forall (fun b => length b = 4%nat) (t2_data (gt_boxes insts)).
Proof.
  unfold make_instances.
  destruct (torch_tensor classes) as [tc|ec]; [| discriminate].
  simpl rbind at 1. destruct masks as [|m masks'].
  - simpl. intros [= <-]. split; [reflexivity |].
    exists (fst image_shape), (snd image_shape). simpl.
    repeat split; constructor.
  - change (Nat.eqb (length (m :: masks')) 0) with false. cbv iota.
    destruct (torch_stack (m :: masks')) as [t|e] eqn:Hst; [| discriminate].
    apply torch_stack_Ok in Hst as [h [w [-> Hall]]].
    simpl. intros [= <-]. split; [reflexivity |]. exists h, w.
    cbn [gt_masks gt_boxes t3_shape t3_data t2_shape t2_data BitMasks
         get_bounding_boxes].
    rewrite !length_map.
    split; [reflexivity |]. split; [reflexivity |]. split.
    + apply List.Forall_forall. intros b Hb.
      apply in_map_iff in Hb as (m0 & <- & Hm0).
      rewrite shape2_to_bool.
      rewrite List.Forall_forall in Hall. exact (Hall m0 Hm0).
    + split; [reflexivity |]. split; [reflexivity |].
      apply List.Forall_forall. intros b Hb.
      apply in_map_iff in Hb as (m0 & <- & _). apply mask_box_length.
Qed.

Lemma transpose_2_0_1_at (image : Array3) (c i j : nat) :
  (c < length (hd [] (hd [] image)))%nat ->
  at_chw (transpose_2_0_1 image) c i j = at_hwc image i j c.
Proof.
  intros Hc. unfold transpose_2_0_1.
  set (f := fun c => map (map (fun p : list Z => nth c p 0)) image).
  assert (Hnth : nth c (map f (seq 0 (length (hd [] (hd [] image))))) [] = f c).
  { rewrite (nth_indep _ [] (f 0%nat)) by (rewrite length_map, length_seq; lia).
    rewrite map_nth, seq_nth by lia. reflexivity. }
  unfold at_chw. rewrite Hnth. unfold f, at_hwc.
  apply (px_map_map (fun p : list Z => nth c p 0) image i j).
  destruct c; reflexivity.
Qed.

Section OutputTensors.

Context {Payload : Type}.
Variable image_format : string.
Variable read_image : string -> string -> result Array3.
Variable augmentations : Array3 -> Array3 * Transform.
Variable frPyObjects_decode : Payload -> Z -> Z -> result decoded.

Local Abbreviation store := (gmap nat (gmap string (value Payload))).
Local Abbreviation mapper :=
  (__call__ Payload image_format read_image augmentations frPyObjects_decode).

(** X15: The tensors of a returned record are well formed: the mask tensor
    announces as many rows as it has, every row has the announced height
    and width, and there is one box of four numbers per row. *)
Theorem output_tensors_well_formed (s s' : store) (l l' : nat) :
  mapper l s = (s', Ok l') ->
  exists out insts n h w,
    s' !! l' = Some out /\ out !! "instances" = Some (VInstances insts) /\
    t3_shape (gt_masks insts) = (n, h, w) /\
    length (t3_data (gt_masks insts)) = n /\
    Forall (fun m => shape2 m = (h, w)) (t3_data (gt_masks insts)) /\
    t2_shape (gt_boxes insts) = (n, 4%nat) /\
    length (t2_data (gt_boxes insts)) = n /\
    Forall (fun b => length b = 4%nat) (t2_data (gt_boxes insts)).
Proof.
  intros Hrun.
  apply call_Ok_inv in Hrun
    as (d & f & image & image' & T & anns & labs & new & insts & Hd & _
        & _ & _ & _ & _ & _ & _ & _ & _ & _ & Hmk & ->).
  apply make_instances_shapes in Hmk as (_ & h & w & Hmk).
  exists (output_of d image' insts), insts, (length new), h, w.
  split; [apply lookup_insert_eq |].
  split; [apply lookup_insert_eq |]. exact Hmk.
Qed.

(** X16: The image of a returned record is the augmented image, not the one
    that was read, laid out channel-first; the image size of its instances
    is the height and width of that augmented image. *)
Theorem output_image_is_augmented (s s' : store) (l l' : nat) :
  mapper l s = (s', Ok l') ->
  exists d file_name image out t insts,
    s !! l = Some d /\ d !! "file_name" = Some (VStr file_name) /\
    read_image file_name image_format = Ok image /\
    s' !! l' = Some out /\
    out !! "image" = Some (VTensor t) /\
    out !! "instances" = Some (VInstances insts) /\
    image_size insts = shape2 (fst (augmentations image)) /\
    forall c i j,
      (c < length (hd [] (hd [] (fst (augmentations image)))))%nat ->
      at_chw t c i j = at_hwc (fst (augmentations image)) i j c.
Proof.
  intros Hrun.
  apply call_Ok_inv in Hrun
    as (d & f & image & image' & T & anns & labs & new & insts & Hd & _
        & Hf & Himg & _ & _ & Haug & _ & _ & _ & _ & Hmk & ->).
  apply make_instances_shapes in Hmk as (Hsize & _).
  exists d, f, image, (output_of d image' insts), (transpose_2_0_1 image'),
         insts.
  rewrite Haug. simpl.
  split; [exact Hd |]. split; [exact Hf |]. split; [exact Himg |].
  split; [apply lookup_insert_eq |].
  split; [unfold output_of; rewrite lookup_insert_ne by discriminate;
          apply lookup_insert_eq |].
  split; [apply lookup_insert_eq |].
  split; [exact Hsize |].
  intros c i j Hc. apply transpose_2_0_1_at. exact Hc.
Qed.

End OutputTensors.

Lemma output_tensors_well_formed_witness :
  exists out insts n h w,
    fst (Fixture.mapper 0%nat Fixture.two_instances) !! 1%nat = Some out /\
    out !! "instances" = Some (VInstances insts) /\
    t3_shape (gt_masks insts) = (n, h, w) /\
    length (t3_data (gt_masks insts)) = n /\
    Forall (fun m => shape2 m = (h, w)) (t3_data (gt_masks insts)) /\
    t2_shape (gt_boxes insts) = (n, 4%nat) /\
    length (t2_data (gt_boxes insts)) = n /\
    Forall (fun b => length b = 4%nat) (t2_data (gt_boxes insts)).
Proof.
  apply (output_tensors_well_formed "BGR" Fixture.reader Fixture.identity
           Fixture.codec Fixture.two_instances _ 0%nat 1%nat).
  apply pair_of_snd. vm_compute. reflexivity.
Defined.

Lemma output_image_is_augmented_witness :
  exists d file_name image out t insts,
    Fixture.two_instances !! 0%nat = Some d /\
    d !! "file_name" = Some (VStr file_name) /\
    Fixture.reader file_name "BGR" = Ok image /\
    fst (Fixture.mapper 0%nat Fixture.two_instances) !! 1%nat = Some out /\
    out !! "image" = Some (VTensor t) /\
    out !! "instances" = Some (VInstances insts) /\
    image_size insts = shape2 (fst (Fixture.identity image)) /\
    forall c i j,
      (c < length (hd [] (hd [] (fst (Fixture.identity image)))))%nat ->
      at_chw t c i j = at_hwc (fst (Fixture.identity image)) i j c.
Proof.
  apply (output_image_is_augmented "BGR" Fixture.reader Fixture.identity
           Fixture.codec Fixture.two_instances _ 0%nat 1%nat).
  apply pair_of_snd. vm_compute. reflexivity.
Defined.
